(** * The message-channel protocol engine of the client library

    A shallow embedding of [library/source/client.ts]: the abstract
    [Channel] listener with its envelope filter and catch block, the
    [HandshakeChannel] with its provider directory, and the
    [HotOstrichChannel] with its table of pending requests.

    JavaScript values that arrive over the bus are untyped, so they are
    modelled as a small value type with the operators the code applies to
    them ([typeof], [in], property reads, [===] against a string, truthiness).
    Methods are computations in a state-and-exception monad; everything an
    instance does to the objects it holds (the window, the Futures, the
    caller's handlers, the pending array) is appended to a trace in program
    order. *)

From Stdlib Require Import String List Bool.
From stdpp Require Import gmap strings list fin_maps.
Import ListNotations.
Local Open Scope string_scope.
Local Open Scope list_scope.
Set Warnings "-register-all".

(** ** JavaScript values *)

Module Js.

(** A number or a BigInt is carried by the text [ToString] gives for it:
    the code only tests them for their type, their truthiness and their
    property-key image, never computes with them. [JObj] is a plain object
    with its own properties, [JArr] an array or a typed array with its
    elements. These are the values the structured clone of [postMessage]
    delivers, short of values with a reference cycle, which have no finite
    tree; [JSON.stringify] treats a cycle the way it treats a BigInt. *)
Inductive JsVal : Type :=
| JUndefined
| JNull
| JBool (b : bool)
| JNum (repr : string)
| JStr (s : string)
| JObj (fields : list (string * JsVal))
| JBigInt (repr : string)
| JArr (items : list JsVal).

(** [typeof v]; [typeof null] is ["object"]. *)
Definition typeof (v : JsVal) : string :=
  match v with
  | JUndefined => "undefined"
  | JNull => "object"
  | JBool _ => "boolean"
  | JNum _ => "number"
  | JStr _ => "string"
  | JObj _ => "object"
  | JBigInt _ => "bigint"
  | JArr _ => "object"
  end.

Fixpoint get_field (k : string) (fields : list (string * JsVal)) : JsVal :=
  match fields with
  | [] => JUndefined
  | (k', v) :: rest => if String.eqb k' k then v else get_field k rest
  end.

Fixpoint has_field (k : string) (fields : list (string * JsVal)) : bool :=
  match fields with
  | [] => false
  | (k', _) :: rest => String.eqb k' k || has_field k rest
  end.

(** [v === s] for a string [s]: no coercion. *)
Definition strict_eq_str (v : JsVal) (s : string) : bool :=
  match v with
  | JStr s' => String.eqb s' s
  | _ => false
  end.

(** ToBoolean, as applied by [if (v)]. *)
Definition truthy (v : JsVal) : bool :=
  match v with
  | JUndefined | JNull => false
  | JBool b => b
  | JNum repr => negb (String.eqb repr "0" || String.eqb repr "NaN")
  | JStr s => negb (String.eqb s "")
  | JObj _ => true
  | JBigInt repr => negb (String.eqb repr "0")
  | JArr _ => true
  end.

(** ToPropertyKey, as applied by [record[v] = ...]: the string itself, the
    text of a primitive, [[object Object]] for a plain object, and for an
    array its elements joined by commas, where [undefined] and [null]
    elements give the empty text. *)
Fixpoint to_property_key (v : JsVal) : string :=
  match v with
  | JUndefined => "undefined"
  | JNull => "null"
  | JBool true => "true"
  | JBool false => "false"
  | JNum repr => repr
  | JStr s => s
  | JObj _ => "[object Object]"
  | JBigInt repr => repr
  | JArr items =>
      String.concat ","
        (List.map (fun item => match item with
                               | JUndefined | JNull => ""
                               | _ => to_property_key item
                               end) items)
  end.

(** Whether [JSON.stringify] accepts the value: it raises a [TypeError] on
    a BigInt, wherever in the value it sits. *)
Fixpoint serialisable (v : JsVal) : bool :=
  match v with
  | JBigInt _ => false
  | JObj fields => forallb (fun field => serialisable (snd field)) fields
  | JArr items => forallb serialisable items
  | _ => true
  end.

(** The text of an [Error]: literal pieces of a template string and the
    places where the code splices [JSON.stringify(v)] in. *)
Inductive MsgPart : Type :=
| Text (s : string)
| Stringify (v : JsVal).

(** Values for which [instanceof Error] holds. A [TypeError] is raised by
    the language itself, for the operator [op] applied to [operand]. *)
Inductive ErrorVal : Type :=
| TypeError (op : string) (operand : JsVal)
| NewError (message : list MsgPart)
| NeverError (v : JsVal).

(** What a [throw] can carry: an [Error], or any other value. *)
Inductive Thrown : Type :=
| ThrowError (e : ErrorVal)
| ThrowValue (v : JsVal).

Inductive Completion (A : Type) : Type :=
| Normal (a : A)
| Abrupt (t : Thrown).
Arguments Normal {A} a.
Arguments Abrupt {A} t.

(** [k in v], for a property name [k] that is no array index: a
    [TypeError] unless [v] is an object. *)
Definition js_in (k : string) (v : JsVal) : Completion bool :=
  match v with
  | JObj fields => Normal (has_field k fields)
  | JArr _ => Normal false
  | _ => Abrupt (ThrowError (TypeError "in" v))
  end.

(** [v.k], for the property names this library reads ([ethereum], [channel],
    [kind], [message], [type], [payload], [correlation_id], [success],
    [provider_id], [address]); none of them is inherited from a prototype.
    Reading a property of [undefined] or [null] is a [TypeError]; a
    primitive and an array have none of these properties. *)
Definition js_get (v : JsVal) (k : string) : Completion JsVal :=
  match v with
  | JUndefined | JNull => Abrupt (ThrowError (TypeError k v))
  | JObj fields => Normal (get_field k fields)
  | JBool _ | JNum _ | JStr _ | JBigInt _ | JArr _ => Normal JUndefined
  end.

(** [JSON.stringify(v)], spliced into a text: the place where the text of
    [v] stands, or the [TypeError] the serializer raises. *)
Definition json_stringify (v : JsVal) : Completion MsgPart :=
  if serialisable v then Normal (Stringify v)
  else Abrupt (ThrowError (TypeError "JSON.stringify" v)).

(** Modelled from the spec: [assertNever] of [./utils], which is not part of
    the sources at hand. The spec treats a value outside a closed vocabulary
    as an invariant failure; it is raised as an [Error] that carries the
    offending value. *)
Definition assertNever {A : Type} (v : JsVal) : Completion A :=
  Abrupt (ThrowError (NeverError v)).

End Js.
Export Js.

(** ** The monad of methods: state and exceptions

    A mutation made before a [throw] stays made, so the state is returned
    with an abrupt completion too. *)

Definition M (St A : Type) : Type := St -> Completion A * St.

Definition ret {St A} (a : A) : M St A := fun s => (Normal a, s).

Definition bind {St A B} (m : M St A) (k : A -> M St B) : M St B :=
  fun s =>
    match m s with
    | (Normal a, s') => k a s'
    | (Abrupt t, s') => (Abrupt t, s')
    end.

Definition liftC {St A} (c : Completion A) : M St A := fun s => (c, s).

Definition gets {St A} (f : St -> A) : M St A := fun s => (Normal (f s), s).

Definition modify {St} (f : St -> St) : M St unit := fun s => (Normal tt, f s).

(** [try { body } catch (error) { handler error }] *)
Definition try_catch {St A} (body : M St A) (handler : Thrown -> M St A) : M St A :=
  fun s =>
    match body s with
    | (Normal a, s') => (Normal a, s')
    | (Abrupt t, s') => handler t s'
    end.

Declare Scope js_scope.
Delimit Scope js_scope with js.
Notation "x <~ m ;; k" := (bind m (fun x => k))
  (at level 100, m at next level, right associativity) : js_scope.
Notation "m ;;; k" := (bind m (fun _ => k))
  (at level 100, right associativity) : js_scope.
Local Open Scope js_scope.

(** ** The window, the pending entries and the trace *)

(** The part of [Window] the library uses: whether [window.parent] exists
    and is another window, and the ['message'] listeners now registered,
    each known by the identity of its closure. *)
Record Window : Type := mkWindow {
  parent_is_other : bool;
  listeners : list nat;
}.

(** [window.addEventListener('message', l)]: a listener that is already
    registered is not registered twice. *)
Definition addEventListener (l : nat) (w : Window) : Window :=
  if existsb (Nat.eqb l) (listeners w) then w
  else mkWindow (parent_is_other w) (listeners w ++ [l]).

(** [window.removeEventListener('message', l)]: nothing happens when [l] is
    not registered. *)
Definition removeEventListener (l : nat) (w : Window) : Window :=
  mkWindow (parent_is_other w) (List.filter (fun l' => negb (Nat.eqb l l')) (listeners w)).

Module Pending.
(** [PendingRequest]; a Future is known by the order of its creation. *)
Record PendingRequest : Type := mkPendingRequest {
  entryTime : Z;
  correlationId : string;
  kind : string;
  future : nat;
}.
End Pending.
Export Pending (PendingRequest, mkPendingRequest).

Inductive Target : Type := ToParent | ToSelf.

(** One entry per call an instance makes on an object it holds:
    [postMessage(data, '*')] on the parent or on the window itself, [push]
    on the pending array, [resolve] and [reject] on a Future, and the
    caller-supplied handlers.

    Modelled from the spec: the Future of [./future], which is not part of
    the sources at hand. A Future is settled from outside by [resolve] and
    [reject]; the calls are recorded and complete normally. *)
Inductive Event : Type :=
| PostMessage (to : Target) (data : JsVal)
| ArrayPush (entry : PendingRequest)
| FutureResolve (future : nat) (value : JsVal)
| FutureReject (future : nat) (reason : ErrorVal)
| HandlerOnError (error : ErrorVal)
| HandlerOnProviderAnnounced (announcement : JsVal)
| HandlerOnSignerAddressChanged (address : JsVal).

(** A channel instance of class [C] in its surroundings. *)
Record Sys (C : Type) : Type := mkSys {
  window : Window;
  onMessageRef : nat;
  trace : list Event;
  this : C;
}.
Arguments mkSys {C} _ _ _ _.
Arguments window {C} _.
Arguments onMessageRef {C} _.
Arguments trace {C} _.
Arguments this {C} _.

Definition set_window {C} (f : Window -> Window) (s : Sys C) : Sys C :=
  mkSys (f (window s)) (onMessageRef s) (trace s) (this s).

Definition set_this {C} (f : C -> C) (s : Sys C) : Sys C :=
  mkSys (window s) (onMessageRef s) (trace s) (f (this s)).

Definition log {C} (e : Event) (s : Sys C) : Sys C :=
  mkSys (window s) (onMessageRef s) (trace s ++ [e]) (this s).

Definition emit {C} (e : Event) : M (Sys C) unit := modify (log e).

(** A call of a caller-supplied handler: recorded, then completed the way
    the handler completes. *)
Definition call_handler {C} (e : Event) (result : Completion unit) : M (Sys C) unit :=
  emit e ;;; liftC result.

(** ** The abstract class [Channel] *)

(** The abstract members every subclass supplies. *)
Class ChannelClass (C : Type) : Type := {
  onProviderMessage : JsVal -> M (Sys C) unit;
  onError : ErrorVal -> M (Sys C) unit;
  providerChannelName : C -> string;
  clientChannelName : C -> string;
  kind : C -> string;
}.

Module Channel.
Section Methods.
Context {C : Type} `{ChannelClass C}.

(** The body of the constructor. *)
Definition constructor : M (Sys C) unit :=
  l <~ gets onMessageRef ;;
  modify (set_window (addEventListener l)).

Definition shutdown : M (Sys C) unit :=
  l <~ gets onMessageRef ;;
  modify (set_window (removeEventListener l)).

Definition isEthereumMessageEvent (data : JsVal) : M (Sys C) bool :=
  if negb (String.eqb (typeof data) "object") then ret false else
  present <~ liftC (js_in "ethereum" data) ;;
  if negb present then ret false else
  ethereum <~ liftC (js_get data "ethereum") ;;
  ret (String.eqb (typeof ethereum) "object").

Definition isProviderMessage (message : JsVal) : M (Sys C) bool :=
  type <~ liftC (js_get message "type") ;;
  if strict_eq_str type "notification" then ret true else
  type' <~ liftC (js_get message "type") ;;
  ret (strict_eq_str type' "response").

Definition isT (messageEnvelope : JsVal) : M (Sys C) bool :=
  k <~ liftC (js_get messageEnvelope "kind") ;;
  self <~ gets this ;;
  ret (strict_eq_str k (kind self)).

(** The [try] block of [onMessage]. *)
Definition onMessage_try (data : JsVal) : M (Sys C) unit :=
  shaped <~ isEthereumMessageEvent data ;;
  if negb shaped then ret tt else
  ethereum <~ liftC (js_get data "ethereum") ;;
  channel <~ liftC (js_get ethereum "channel") ;;
  self <~ gets this ;;
  if negb (strict_eq_str channel (providerChannelName self)) then ret tt else
  mine <~ isT ethereum ;;
  if negb mine then ret tt else
  message <~ liftC (js_get ethereum "message") ;;
  provided <~ isProviderMessage message ;;
  if negb provided then ret tt else
  onProviderMessage message.

(** The [catch] block of [onMessage]. In its last branch
    [JSON.stringify(error)] is evaluated first and may itself throw. *)
Definition onMessage_catch (error : Thrown) : M (Sys C) unit :=
  match error with
  | ThrowError e => onError e
  | ThrowValue (JStr s) => onError (NewError [Text s])
  | ThrowValue v =>
      text <~ liftC (json_stringify v) ;;
      onError (NewError [text])
  end.

Definition onMessage (data : JsVal) : M (Sys C) unit :=
  try_catch (onMessage_try data) onMessage_catch.

Definition send (message : JsVal) : M (Sys C) unit :=
  self <~ gets this ;;
  let ethereumEnvelope :=
    JObj [("ethereum", JObj [("channel", JStr (clientChannelName self));
                             ("kind", JStr (kind self));
                             ("message", message)])] in
  w <~ gets window ;;
  (if parent_is_other w then emit (PostMessage ToParent ethereumEnvelope) else ret tt) ;;;
  emit (PostMessage ToSelf ethereumEnvelope).

(** The window dispatches a ['message'] event to each listener registered
    at that time; this is the delivery of one event, with payload [data], to
    this instance. *)
Definition deliver (data : JsVal) : M (Sys C) unit :=
  l <~ gets onMessageRef ;;
  w <~ gets window ;;
  if existsb (Nat.eqb l) (listeners w) then onMessage data else ret tt.

End Methods.
End Channel.

(** ** The constants of [./shared]

    [./shared] is not part of the sources at hand; the names and prefixes it
    exports are taken as given. *)
Module Shared.
Record HandshakeConstants : Type := mkHandshakeConstants {
  HS_PROVIDER_CHANNEL_NAME : string;
  HS_CLIENT_CHANNEL_NAME : string;
  HS_KIND : string;
}.
Record HotOstrichConstants : Type := mkHotOstrichConstants {
  HO_PROVIDER_CHANNEL_PREFIX : string;
  HO_CLIENT_CHANNEL_PREFIX : string;
  HO_KIND : string;
}.
End Shared.

(** ** [HandshakeChannel] *)

(** The caller's callbacks. A callback is taken by what it gives back to the
    channel that called it: it returns, or it throws a value. What the body
    of a callback does besides is the caller's code, not the channel's: a
    call it makes into the channel ([reRequestProviders], [shutdown]) is a
    call of its own, to be placed in a run where it happens, and is not part
    of the delivery during which the callback ran. *)
Module HandshakeHandlers.
Record t : Type := mk {
  onError : ErrorVal -> Completion unit;
  onProviderAnnounced : JsVal -> Completion unit;
}.
End HandshakeHandlers.

Module HandshakeChannel.

(** What the record [knownProviders] inherits from: [Object.prototype] as
    every [{}] does at first, nothing at all, or a payload that an
    assignment to [__proto__] has put in its place (a cloned plain object or
    array, itself inheriting from the built-in prototypes). *)
Inductive Prototype : Type :=
| ObjectPrototype
| NullPrototype
| Announced (payload : JsVal).

(** [knownProviders] holds the own properties of the record,
    [knownProvidersPrototype] what it inherits from. *)
Record t : Type := mk {
  handshakeHandlers : HandshakeHandlers.t;
  knownProviders : gmap string JsVal;
  knownProvidersPrototype : Prototype;
  providerChannelName : string;
  clientChannelName : string;
  kind : string;
}.

Definition set_knownProviders (f : gmap string JsVal -> gmap string JsVal) (c : t) : t :=
  mk (handshakeHandlers c) (f (knownProviders c)) (knownProvidersPrototype c)
     (providerChannelName c) (clientChannelName c) (kind c).

Definition set_knownProvidersPrototype (prototype : Prototype) (c : t) : t :=
  mk (handshakeHandlers c) (knownProviders c) prototype
     (providerChannelName c) (clientChannelName c) (kind c).

(** Whether an assignment to [__proto__] that finds no own property finds a
    data property before it reaches the accessor of [Object.prototype]: an
    own [__proto__] property of an announced plain object, or no property
    at all when the record inherits from nothing. *)
Definition proto_is_data (prototype : Prototype) : bool :=
  match prototype with
  | ObjectPrototype => false
  | NullPrototype => true
  | Announced (JObj fields) => has_field "__proto__" fields
  | Announced _ => false
  end.

(** [this.knownProviders[key] = value]. Every key writes an own property
    of the record, but for [__proto__] as long as neither the record nor an
    announced prototype has a data property of that name: then the
    assignment goes to the setter inherited from [Object.prototype], which
    writes no property and replaces the prototype when [value] is an object
    or [null]. *)
Definition record_set (key : string) (value : JsVal) (c : t) : t :=
  if String.eqb key "__proto__"
     && negb (bool_decide (is_Some (knownProviders c !! "__proto__")))
     && negb (proto_is_data (knownProvidersPrototype c))
  then match value with
       | JObj _ | JArr _ => set_knownProvidersPrototype (Announced value) c
       | JNull => set_knownProvidersPrototype NullPrototype c
       | _ => c
       end
  else set_knownProviders (insert key value) c.

Definition onError (error : ErrorVal) : M (Sys t) unit :=
  self <~ gets this ;;
  call_handler (HandlerOnError error)
               (HandshakeHandlers.onError (handshakeHandlers self) error).

Definition onProviderAnnouncement (announcement : JsVal) : M (Sys t) unit :=
  provider_id <~ liftC (js_get announcement "provider_id") ;;
  modify (set_this (record_set (to_property_key provider_id) announcement)) ;;;
  self <~ gets this ;;
  call_handler (HandlerOnProviderAnnounced announcement)
               (HandshakeHandlers.onProviderAnnounced (handshakeHandlers self) announcement).

Definition onNotification (notification : JsVal) : M (Sys t) unit :=
  k <~ liftC (js_get notification "kind") ;;
  if strict_eq_str k "provider_announcement" then
    payload <~ liftC (js_get notification "payload") ;;
    onProviderAnnouncement payload
  else
    liftC (assertNever k).

Definition onProviderMessage (message : JsVal) : M (Sys t) unit :=
  type <~ liftC (js_get message "type") ;;
  if strict_eq_str type "notification" then onNotification message
  else liftC (assertNever type).

#[global] Instance handshake_channel : ChannelClass t :=
  Build_ChannelClass t onProviderMessage onError
                     providerChannelName clientChannelName kind.

Definition client_announcement : JsVal :=
  JObj [("kind", JStr "client_announcement");
        ("type", JStr "broadcast");
        ("payload", JObj [])].

Definition announceClient : M (Sys t) unit :=
  Channel.send client_announcement.

Definition reRequestProviders : M (Sys t) unit :=
  announceClient.

(** [new HandshakeChannel(window, handshakeHandlers)]: the instance before
    any constructor body has run, then [super(window)] and
    [this.announceClient()]. [ref] is the identity of the new instance's
    [onMessage] closure. *)
Definition fresh (shared : Shared.HandshakeConstants) (w : Window) (ref : nat)
    (handlers : HandshakeHandlers.t) : Sys t :=
  mkSys w ref []
        (mk handlers ∅ ObjectPrototype
            (Shared.HS_PROVIDER_CHANNEL_NAME shared)
            (Shared.HS_CLIENT_CHANNEL_NAME shared)
            (Shared.HS_KIND shared)).

Definition constructor : M (Sys t) unit :=
  Channel.constructor ;;;
  announceClient.

Definition new (shared : Shared.HandshakeConstants) (w : Window) (ref : nat)
    (handlers : HandshakeHandlers.t) : Completion unit * Sys t :=
  constructor (fresh shared w ref handlers).

End HandshakeChannel.

(** ** [HotOstrichChannel] *)

(** The caller's callbacks, taken as those of the handshake channel are: by
    their completion, a return or a thrown value. A typed call or a
    [shutdown] that the body of a callback makes is a call of its own and
    not part of the delivery during which the callback ran. *)
Module HotOstrichHandlers.
Record t : Type := mk {
  onError : ErrorVal -> Completion unit;
  onSignerAddressChanged : JsVal -> Completion unit;
}.
End HotOstrichHandlers.

Module HotOstrichChannel.

(** [futuresCreated] counts the [new Future()] evaluated so far, which
    gives each Future its identity. *)
Record t : Type := mk {
  providerId : string;
  hotOstrichHandlers : HotOstrichHandlers.t;
  pendingRequests : list PendingRequest;
  futuresCreated : nat;
  providerChannelName : string;
  clientChannelName : string;
  kind : string;
}.

Definition set_pendingRequests (f : list PendingRequest -> list PendingRequest) (c : t) : t :=
  mk (providerId c) (hotOstrichHandlers c) (f (pendingRequests c)) (futuresCreated c)
     (providerChannelName c) (clientChannelName c) (kind c).

Definition set_futuresCreated (f : nat -> nat) (c : t) : t :=
  mk (providerId c) (hotOstrichHandlers c) (pendingRequests c) (f (futuresCreated c))
     (providerChannelName c) (clientChannelName c) (kind c).

Definition onError (error : ErrorVal) : M (Sys t) unit :=
  self <~ gets this ;;
  call_handler (HandlerOnError error)
               (HotOstrichHandlers.onError (hotOstrichHandlers self) error).

(** [pendingRequests.find(p => p.correlationId === response.correlation_id)]:
    the predicate reads the response once per entry it visits. *)
Fixpoint find (response : JsVal) (entries : list PendingRequest)
  : Completion (option PendingRequest) :=
  match entries with
  | [] => Normal None
  | pendingRequest :: rest =>
      match js_get response "correlation_id" with
      | Abrupt t => Abrupt t
      | Normal correlation_id =>
          if strict_eq_str correlation_id (Pending.correlationId pendingRequest)
          then Normal (Some pendingRequest)
          else find response rest
      end
  end.

(** The two template strings, with the text of [JSON.stringify(...)] to be
    spliced in. *)
Definition no_matching_request (response : MsgPart) : ErrorVal :=
  NewError [Text "Received a response without finding a matching request.  Maybe it already timed out?  ";
            response].

Definition failure_response (payload : MsgPart) : ErrorVal :=
  NewError [Text "Failure response from provider.  "; payload].

Definition onHotOstrichResponse (response : JsVal) : M (Sys t) unit :=
  self <~ gets this ;;
  found <~ liftC (find response (pendingRequests self)) ;;
  match found with
  | None =>
      text <~ liftC (json_stringify response) ;;
      liftC (Abrupt (ThrowError (no_matching_request text)))
  | Some pendingRequest =>
      let future := Pending.future pendingRequest in
      success <~ liftC (js_get response "success") ;;
      if truthy success then
        payload <~ liftC (js_get response "payload") ;;
        emit (FutureResolve future payload)
      else
        payload <~ liftC (js_get response "payload") ;;
        text <~ liftC (json_stringify payload) ;;
        emit (FutureReject future (failure_response text))
  end.

Definition onSignerAddressChanged (notification : JsVal) : M (Sys t) unit :=
  payload <~ liftC (js_get notification "payload") ;;
  address <~ liftC (js_get payload "address") ;;
  self <~ gets this ;;
  call_handler (HandlerOnSignerAddressChanged address)
               (HotOstrichHandlers.onSignerAddressChanged (hotOstrichHandlers self) address).

Definition onHotOstrichNotification (notification : JsVal) : M (Sys t) unit :=
  k <~ liftC (js_get notification "kind") ;;
  if strict_eq_str k "signer_address_changed" then onSignerAddressChanged notification
  else liftC (assertNever k).

Definition onProviderMessage (message : JsVal) : M (Sys t) unit :=
  type <~ liftC (js_get message "type") ;;
  if strict_eq_str type "response" then onHotOstrichResponse message
  else if strict_eq_str type "notification" then onHotOstrichNotification message
  else liftC (assertNever message).

#[global] Instance hot_ostrich_channel : ChannelClass t :=
  Build_ChannelClass t onProviderMessage onError
                     providerChannelName clientChannelName kind.

(** [new Future()] *)
Definition newFuture : M (Sys t) nat :=
  self <~ gets this ;;
  modify (set_this (set_futuresCreated S)) ;;;
  ret (futuresCreated self).

(** [this.pendingRequests.push(pendingRequest)] *)
Definition push (pendingRequest : PendingRequest) : M (Sys t) unit :=
  emit (ArrayPush pendingRequest) ;;;
  modify (set_this (set_pendingRequests (fun entries => (entries ++ [pendingRequest])%list))).

Definition request_message (kind correlationId : string) (requestPayload : JsVal) : JsVal :=
  JObj [("type", JStr "request");
        ("kind", JStr kind);
        ("correlation_id", JStr correlationId);
        ("payload", requestPayload)].

(** [promisify(kind, requestPayload)]. The values [Date.now()] and
    [newCorrelationId()] return are read from the surroundings, so they are
    arguments here; the result is the Future whose promise is returned. *)
Definition promisify (kind : string) (requestPayload : JsVal)
    (entryTime : Z) (correlationId : string) : M (Sys t) nat :=
  let message := request_message kind correlationId requestPayload in
  Channel.send message ;;;
  future <~ newFuture ;;
  let pendingRequest := mkPendingRequest entryTime correlationId kind future in
  push pendingRequest ;;;
  ret future.

(** The typed methods, each with the payload it is called with. *)
Inductive TypedCall : Type :=
| getCapabilities
| submitNativeTokenTransfer (payload : JsVal)
| submitContractCall (payload : JsVal)
| submitContractDeployment (payload : JsVal)
| signMessage (payload : string)
| localContractCall (payload : JsVal)
| getSignerAddress.

Definition kind_of (call : TypedCall) : string :=
  match call with
  | getCapabilities => "get_capabilities"
  | submitNativeTokenTransfer _ => "submit_native_token_transfer"
  | submitContractCall _ => "submit_contract_call"
  | submitContractDeployment _ => "submit_contract_deployment"
  | signMessage _ => "sign_message"
  | localContractCall _ => "local_contract_call"
  | getSignerAddress => "get_signer_address"
  end.

Definition payload_of (call : TypedCall) : JsVal :=
  match call with
  | getCapabilities => JObj []
  | submitNativeTokenTransfer payload => payload
  | submitContractCall payload => payload
  | submitContractDeployment payload => payload
  | signMessage payload => JObj [("message", JStr payload)]
  | localContractCall payload => payload
  | getSignerAddress => JObj []
  end.

(** A typed method up to its [await]: the call of [promisify]. *)
Definition issue (call : TypedCall) (entryTime : Z) (correlationId : string) : M (Sys t) nat :=
  promisify (kind_of call) (payload_of call) entryTime correlationId.

(** [new HotOstrichChannel(window, providerId, hotOstrichHandlers)]: the
    instance before the constructor body has run; the body is [super(window)]. *)
Definition fresh (shared : Shared.HotOstrichConstants) (w : Window) (ref : nat)
    (providerId : string) (handlers : HotOstrichHandlers.t) : Sys t :=
  mkSys w ref []
        (mk providerId handlers [] 0
            (String.append (Shared.HO_PROVIDER_CHANNEL_PREFIX shared) providerId)
            (String.append (Shared.HO_CLIENT_CHANNEL_PREFIX shared) providerId)
            (Shared.HO_KIND shared)).

Definition constructor : M (Sys t) unit :=
  Channel.constructor.

Definition new (shared : Shared.HotOstrichConstants) (w : Window) (ref : nat)
    (providerId : string) (handlers : HotOstrichHandlers.t) : Completion unit * Sys t :=
  constructor (fresh shared w ref providerId handlers).

End HotOstrichChannel.

(** ** Notions the properties are stated with *)

(** The inner message of an event that passes the first three filter steps
    of a channel in state [c]: an object with an [ethereum] object whose
    [channel] is the provider-facing name and whose [kind] is the protocol
    kind of [c]. *)
Definition addressed_message {C : Type} `{ChannelClass C} (c : C) (data : JsVal)
  : option JsVal :=
  match data with
  | JObj fields =>
      match get_field "ethereum" fields with
      | JObj envelope =>
          if strict_eq_str (get_field "channel" envelope) (providerChannelName c)
             && strict_eq_str (get_field "kind" envelope) (kind c)
          then Some (get_field "message" envelope)
          else None
      | _ => None
      end
  | _ => None
  end.

(** The envelope a provider puts on the bus for the channel in state [c]. *)
Definition provider_envelope {C : Type} `{ChannelClass C} (c : C) (message : JsVal) : JsVal :=
  JObj [("ethereum", JObj [("channel", JStr (providerChannelName c));
                           ("kind", JStr (kind c));
                           ("message", message)])].

(** The envelope [send] builds in state [c]. *)
Definition client_envelope {C : Type} `{ChannelClass C} (c : C) (message : JsVal) : JsVal :=
  JObj [("ethereum", JObj [("channel", JStr (clientChannelName c));
                           ("kind", JStr (kind c));
                           ("message", message)])].

(** The [postMessage] calls of one [send]. *)
Definition posts (w : Window) (envelope : JsVal) : list Event :=
  (if parent_is_other w then [PostMessage ToParent envelope] else [])
  ++ [PostMessage ToSelf envelope].

(** The first entry of a table that carries the correlation id [cid]. *)
Definition lookup_pending (cid : string) (entries : list PendingRequest)
  : option PendingRequest :=
  List.find (fun p => String.eqb cid (Pending.correlationId p)) entries.

(** The one call a response object makes once it is matched with an entry:
    [resolve] with the payload when [success] is truthy; otherwise [reject]
    with the error built from the payload, or, when the payload is one that
    [JSON.stringify] rejects, [onError] with the serializer's [TypeError]
    and no call on the Future. *)
Definition settlement (future : nat) (response : list (string * JsVal)) : Event :=
  if truthy (get_field "success" response)
  then FutureResolve future (get_field "payload" response)
  else if serialisable (get_field "payload" response)
  then FutureReject future
         (NewError [Text "Failure response from provider.  ";
                    Stringify (get_field "payload" response)])
  else HandlerOnError (TypeError "JSON.stringify" (get_field "payload" response)).

(** How the listener completes on a matched response: normally after a call
    on the Future, and the way the caller's [onError] completes otherwise. *)
Definition settled (handlers : HotOstrichHandlers.t) (response : list (string * JsVal))
  : Completion unit :=
  if truthy (get_field "success" response) || serialisable (get_field "payload" response)
  then Normal tt
  else HotOstrichHandlers.onError handlers
         (TypeError "JSON.stringify" (get_field "payload" response)).

(** The error a response raises that is matched with no entry: the
    no-matching-request error with the response spliced in, or the
    serializer's [TypeError] when the response cannot be spliced in. *)
Definition unmatched (response : JsVal) : ErrorVal :=
  if serialisable response
  then NewError [Text "Received a response without finding a matching request.  Maybe it already timed out?  ";
                 Stringify response]
  else TypeError "JSON.stringify" response.

(** Some event satisfying [P] occurs in the trace strictly before some
    event satisfying [Q]. *)
Fixpoint occurs_before (P Q : Event -> bool) (events : list Event) : bool :=
  match events with
  | [] => false
  | e :: rest => (P e && existsb Q rest) || occurs_before P Q rest
  end.

Definition is_push_for (cid : string) (e : Event) : bool :=
  match e with
  | ArrayPush entry => String.eqb cid (Pending.correlationId entry)
  | _ => false
  end.

Definition is_post_of (envelope : JsVal -> bool) (e : Event) : bool :=
  match e with
  | PostMessage _ data => envelope data
  | _ => false
  end.

(** The request with correlation id [cid] sits in the envelope [data]. *)
Definition carries_request (cid : string) (data : JsVal) : bool :=
  match data with
  | JObj fields =>
      match get_field "ethereum" fields with
      | JObj envelope =>
          match get_field "message" envelope with
          | JObj message =>
              strict_eq_str (get_field "type" message) "request"
              && strict_eq_str (get_field "correlation_id" message) cid
          | _ => false
          end
      | _ => false
      end
  | _ => false
  end.

(** The entry a typed call creates when it is issued in state [s], and the
    state the call leaves. *)
Definition entry_of (call : HotOstrichChannel.TypedCall) (entryTime : Z)
    (correlationId : string) (s : Sys HotOstrichChannel.t) : PendingRequest :=
  mkPendingRequest entryTime correlationId (HotOstrichChannel.kind_of call)
                   (HotOstrichChannel.futuresCreated (this s)).

Definition request_of (call : HotOstrichChannel.TypedCall) (correlationId : string) : JsVal :=
  HotOstrichChannel.request_message (HotOstrichChannel.kind_of call) correlationId
                                    (HotOstrichChannel.payload_of call).

(** The [postMessage] calls of a typed call issued in state [s]. *)
Definition sent_by (call : HotOstrichChannel.TypedCall) (correlationId : string)
    (s : Sys HotOstrichChannel.t) : list Event :=
  posts (window s) (client_envelope (this s) (request_of call correlationId)).

Definition after_issue (call : HotOstrichChannel.TypedCall) (entryTime : Z)
    (correlationId : string) (s : Sys HotOstrichChannel.t) : Sys HotOstrichChannel.t :=
  let c := this s in
  let entry := entry_of call entryTime correlationId s in
  mkSys (window s) (onMessageRef s)
        (trace s
         ++ posts (window s) (client_envelope c (request_of call correlationId))
         ++ [ArrayPush entry])
        (HotOstrichChannel.mk
           (HotOstrichChannel.providerId c)
           (HotOstrichChannel.hotOstrichHandlers c)
           (HotOstrichChannel.pendingRequests c ++ [entry])
           (S (HotOstrichChannel.futuresCreated c))
           (HotOstrichChannel.providerChannelName c)
           (HotOstrichChannel.clientChannelName c)
           (HotOstrichChannel.kind c)).

(** The [Error] the catch block hands to [onError], in the words of the
    specification: an [Error] as it is, a string as [new Error(string)],
    any other value as [new Error(JSON.stringify(value))]. For a value that
    [JSON.stringify] rejects there is no such [Error]: the serializer's
    [TypeError] is raised in its place. *)
Definition normalize (thrown : Thrown) : Completion ErrorVal :=
  match thrown with
  | ThrowError e => Normal e
  | ThrowValue (JStr s) => Normal (NewError [Text s])
  | ThrowValue v =>
      if serialisable v then Normal (NewError [Stringify v])
      else Abrupt (ThrowError (TypeError "JSON.stringify" v))
  end.

(** Events the filter drops by design: a payload that is no object, an
    object without an [ethereum] object, another channel name, another
    protocol kind, or a message whose [type] is not provider-originated. An
    event that makes one of the filter's property reads fail ([null] where
    an object is expected, a missing message) is not among them. *)
Definition foreign {C : Type} `{ChannelClass C} (c : C) (data : JsVal) : bool :=
  match data with
  | JNull => false
  | JObj fields =>
      if negb (has_field "ethereum" fields) then true else
      match get_field "ethereum" fields with
      | JNull => false
      | JObj envelope =>
          if negb (strict_eq_str (get_field "channel" envelope) (providerChannelName c))
          then true
          else if negb (strict_eq_str (get_field "kind" envelope) (kind c))
          then true
          else match get_field "message" envelope with
               | JUndefined | JNull => false
               | JObj message =>
                   negb (strict_eq_str (get_field "type" message) "notification"
                         || strict_eq_str (get_field "type" message) "response")
               | _ => true
               end
      | _ => true
      end
  | _ => true
  end.

(** A computation keeps the relation [R] when every state is related to
    the state the computation leaves, however it completes. *)
Definition keeps {St A : Type} (R : St -> St -> Prop) (m : M St A) : Prop :=
  forall s, R s (snd (m s)).

(** No field of the instance has changed. *)
Definition same_fields {C : Type} (s s' : Sys C) : Prop := this s' = this s.

(** What can happen to an RPC channel: the bus delivers an event, the
    caller issues a typed call, or the caller shuts the channel down. *)
Inductive Operation : Type :=
| Deliver (data : JsVal)
| Issue (call : HotOstrichChannel.TypedCall) (entryTime : Z) (correlationId : string)
| Shutdown.

Definition perform (op : Operation) (s : Sys HotOstrichChannel.t) : Sys HotOstrichChannel.t :=
  match op with
  | Deliver data => snd (Channel.deliver data s)
  | Issue call entryTime correlationId =>
      snd (HotOstrichChannel.issue call entryTime correlationId s)
  | Shutdown => snd (Channel.shutdown s)
  end.

Definition perform_all (ops : list Operation) (s : Sys HotOstrichChannel.t)
  : Sys HotOstrichChannel.t :=
  fold_left (fun s' op => perform op s') ops s.

(** ** Sample instances

    Concrete windows, handlers and messages on which the properties are
    exercised. The constants stand in for those of [./shared]. *)
Module Sample.

Definition hotOstrich : Shared.HotOstrichConstants :=
  Shared.mkHotOstrichConstants "HotOstrichProvider-" "HotOstrichClient-" "hot_ostrich".

Definition handshake : Shared.HandshakeConstants :=
  Shared.mkHandshakeConstants "HandshakeProvider" "HandshakeClient" "handshake".

Definition top : Window := mkWindow false [].
Definition framed : Window := mkWindow true [].

(** Handlers that return normally, and handlers that throw. *)
Definition quiet : HotOstrichHandlers.t :=
  HotOstrichHandlers.mk (fun _ => Normal tt) (fun _ => Normal tt).


Definition hsQuiet : HandshakeHandlers.t :=
  HandshakeHandlers.mk (fun _ => Normal tt) (fun _ => Normal tt).

Definition hsThrowing : HandshakeHandlers.t :=
  HandshakeHandlers.mk (fun _ => Normal tt)
                       (fun _ => Abrupt (ThrowValue (JStr "announcement refused"))).

(** An RPC channel for the provider [wallet]: new, then with the call X
    pending, then with the calls X and Y pending. *)
Definition rpc0 : Sys HotOstrichChannel.t :=
  snd (HotOstrichChannel.new hotOstrich top 1 "wallet" quiet).

Definition rpc1 : Sys HotOstrichChannel.t :=
  snd (HotOstrichChannel.issue HotOstrichChannel.getSignerAddress 1000 "X" rpc0).

Definition rpc2 : Sys HotOstrichChannel.t :=
  snd (HotOstrichChannel.issue HotOstrichChannel.getCapabilities 1001 "Y" rpc1).


Definition response (kind cid : string) (success : bool) (payload : JsVal)
  : list (string * JsVal) :=
  [("type", JStr "response"); ("kind", JStr kind); ("correlation_id", JStr cid);
   ("success", JBool success); ("payload", payload)].

Definition address (bytes : string) : JsVal := JObj [("address", JStr bytes)].

Definition toWallet (message : list (string * JsVal)) : JsVal :=
  provider_envelope (this rpc0) (JObj message).

Definition respX : list (string * JsVal) :=
  response "get_signer_address" "X" true (address "0xaa").
Definition respXagain : list (string * JsVal) :=
  response "get_signer_address" "X" true (address "0xbb").
Definition failX : list (string * JsVal) :=
  response "get_signer_address" "X" false (JStr "user rejected").
Definition respY : list (string * JsVal) :=
  response "get_capabilities" "Y" true (JObj [("capabilities", JObj [("0", JStr "sign")])]).
Definition respZ : list (string * JsVal) :=
  response "get_signer_address" "Z" true (address "0xcc").

Definition entryX : PendingRequest := mkPendingRequest 1000 "X" "get_signer_address" 0.

(** [rpc1] after the response to X has been delivered. *)
Definition rpc1Settled : Sys HotOstrichChannel.t :=
  snd (Channel.deliver (toWallet respX) rpc1).

(** A handshake channel: new, and with the providers [p1] and [p2] known. *)
Definition hs0 : Sys HandshakeChannel.t :=
  snd (HandshakeChannel.new handshake framed 2 hsQuiet).

Definition hsRefusing : Sys HandshakeChannel.t :=
  snd (HandshakeChannel.new handshake framed 2 hsThrowing).

Definition announcement (provider_id friendly_name : string) : JsVal :=
  JObj [("provider_id", JStr provider_id); ("friendly_name", JStr friendly_name)].

Definition notification (payload : JsVal) : list (string * JsVal) :=
  [("type", JStr "notification"); ("kind", JStr "provider_announcement");
   ("payload", payload)].

Definition toClient (message : list (string * JsVal)) : JsVal :=
  provider_envelope (this hs0) (JObj message).

Definition hs2 : Sys HandshakeChannel.t :=
  snd (Channel.deliver (toClient (notification (announcement "p2" "second")))
         (snd (Channel.deliver (toClient (notification (announcement "p1" "first"))) hs0))).

End Sample.

(** ** Notions for the properties of whole runs *)

(** What the listener of an RPC channel in state [s] can add to the trace
    for one event: nothing, one call of [onError], the [settlement] of an
    entry of the table (one call on its Future, or the call of [onError]
    that takes its place when the text of the rejection cannot be built), or
    one call of [onSignerAddressChanged], followed by a call of [onError]
    when that handler throws a value the catch block can normalize. *)
Inductive delivery_events (s : Sys HotOstrichChannel.t) : list Event -> Prop :=
| nothing_called : delivery_events s []
| error_reported (e : ErrorVal) : delivery_events s [HandlerOnError e]
| future_called (p : PendingRequest) (fields : list (string * JsVal)) :
    In p (HotOstrichChannel.pendingRequests (this s)) ->
    delivery_events s [settlement (Pending.future p) fields]
| signer_notified (address : JsVal) :
    delivery_events s [HandlerOnSignerAddressChanged address]
| signer_notified_error (address : JsVal) (e : ErrorVal) :
    delivery_events s [HandlerOnSignerAddressChanged address; HandlerOnError e].

(** The Future an event is a call on, if it is one. *)
Definition future_called_by (e : Event) : option nat :=
  match e with
  | FutureResolve future _ => Some future
  | FutureReject future _ => Some future
  | _ => None
  end.

(** Every call on a Future in [events] is on a Future created before the
    [n]-th. *)
Definition futures_below (n : nat) (events : list Event) : Prop :=
  Forall (fun e => match future_called_by e with
                   | Some future => future < n
                   | None => True
                   end) events.

(** The entries of a table hold the Futures 0, 1, 2, ... in this order. *)
Definition futures_in_order (entries : list PendingRequest) : Prop :=
  map Pending.future entries = seq 0 (length entries).

(** What holds of an RPC channel throughout its life: the table holds the
    Futures in the order of their creation, all Futures created are in it,
    and the trace calls no Future that was not created. *)
Definition run_invariant (s : Sys HotOstrichChannel.t) : Prop :=
  futures_in_order (HotOstrichChannel.pendingRequests (this s))
  /\ length (HotOstrichChannel.pendingRequests (this s)) =
     HotOstrichChannel.futuresCreated (this s)
  /\ futures_below (HotOstrichChannel.futuresCreated (this s)) (trace s).

(** What can happen to a handshake channel. *)
Inductive DirectoryOperation : Type :=
| Receive (data : JsVal)
| ReRequest
| Close.

Definition directory_perform (op : DirectoryOperation) (s : Sys HandshakeChannel.t)
  : Sys HandshakeChannel.t :=
  match op with
  | Receive data => snd (Channel.deliver data s)
  | ReRequest => snd (HandshakeChannel.reRequestProviders s)
  | Close => snd (Channel.shutdown s)
  end.

Definition directory_perform_all (ops : list DirectoryOperation)
    (s : Sys HandshakeChannel.t) : Sys HandshakeChannel.t :=
  fold_left (fun s' op => directory_perform op s') ops s.

(** A call of [postMessage]. *)
Definition is_post (e : Event) : bool :=
  match e with
  | PostMessage _ _ => true
  | _ => false
  end.

(** How many times the caller asked for the providers again. *)
Fixpoint rerequests (ops : list DirectoryOperation) : nat :=
  match ops with
  | [] => 0
  | ReRequest :: rest => S (rerequests rest)
  | _ :: rest => rerequests rest
  end.

(** One step of a handshake channel that posts nothing: the window and the
    names are the ones before, and so are the posts in the trace. *)
Definition quiet_step (s s' : Sys HandshakeChannel.t) : Prop :=
  window s' = window s
  /\ HandshakeChannel.clientChannelName (this s') = HandshakeChannel.clientChannelName (this s)
  /\ HandshakeChannel.kind (this s') = HandshakeChannel.kind (this s)
  /\ List.filter is_post (trace s') = List.filter is_post (trace s).

(** Every provider the directory holds in [s] it holds in [s']. *)
Definition remembers (s s' : Sys HandshakeChannel.t) : Prop :=
  forall provider_id : string,
    is_Some (HandshakeChannel.knownProviders (this s) !! provider_id) ->
    is_Some (HandshakeChannel.knownProviders (this s') !! provider_id).

(** Further sample instances. *)
Module Scenario.

(** A second RPC channel on the same window, for the provider [vault]. *)
Definition vault0 : Sys HotOstrichChannel.t :=
  snd (HotOstrichChannel.new Sample.hotOstrich Sample.top 5 "vault" Sample.quiet).

(** The calls X and, again, X pending on the [wallet] channel. *)
Definition twiceX : Sys HotOstrichChannel.t :=
  snd (HotOstrichChannel.issue HotOstrichChannel.getCapabilities 1002 "X" Sample.rpc1).

Definition noSuccess : list (string * JsVal) :=
  [("type", JStr "response"); ("kind", JStr "get_signer_address");
   ("correlation_id", JStr "X"); ("payload", JStr "no verdict")].

Definition signerChanged (payload : JsVal) : list (string * JsVal) :=
  [("type", JStr "notification"); ("kind", JStr "signer_address_changed");
   ("payload", payload)].

Definition bareNotification : list (string * JsVal) :=
  [("type", JStr "notification"); ("kind", JStr "signer_address_changed")].

(** A window on which the listeners 4 and 9 are registered already. *)
Definition busy : Window := mkWindow false [4; 9].

Definition rpcBusy : Sys HotOstrichChannel.t :=
  HotOstrichChannel.fresh Sample.hotOstrich busy 1 "wallet" Sample.quiet.

Definition anonymous : JsVal := JObj [("friendly_name", JStr "nameless")].

(** A handler that throws a BigInt; a failure response and an announcement
    id that hold one. *)
Definition hsThrowingBigInt : HandshakeHandlers.t :=
  HandshakeHandlers.mk (fun _ => Normal tt)
                       (fun _ => Abrupt (ThrowValue (JBigInt "1"))).

Definition hsBigInt : Sys HandshakeChannel.t :=
  snd (HandshakeChannel.new Sample.handshake Sample.framed 2 hsThrowingBigInt).

Definition failBig : list (string * JsVal) :=
  Sample.response "get_signer_address" "X" false (JObj [("code", JBigInt "4001")]).

(** Announcements for the id [__proto__]: a plain one, and one whose
    payload has an own property of that name. *)
Definition plainProto : JsVal :=
  JObj [("provider_id", JStr "__proto__"); ("friendly_name", JStr "sly")].

Definition ownProto : JsVal :=
  JObj [("provider_id", JStr "__proto__"); ("__proto__", JStr "bait")].

(** A new handshake channel after the second of them has been delivered. *)
Definition hsBaited : Sys HandshakeChannel.t :=
  snd (Channel.deliver (Sample.toClient (Sample.notification ownProto)) Sample.hs0).

End Scenario.

(** ** Properties of the abstract [Channel] *)

Ltac run_monad :=
  unfold call_handler, emit, modify, try_catch, bind, liftC, gets, ret in *.

(** Frame rules: a relation that is reflexive and transitive is kept by a
    computation when each of its steps keeps it. *)
Section Frames.
Context {St : Type} (R : St -> St -> Prop).
Hypothesis R_refl : forall s, R s s.
Hypothesis R_trans : forall a b c, R a b -> R b c -> R a c.

Lemma keeps_ret {A : Type} (a : A) : keeps R (ret a).
Proof. intros s. apply R_refl. Qed.

Lemma keeps_liftC {A : Type} (c : Completion A) : keeps R (liftC c).
Proof. intros s. apply R_refl. Qed.

Lemma keeps_gets {A : Type} (f : St -> A) : keeps R (gets f).
Proof. intros s. apply R_refl. Qed.

Lemma keeps_bind {A B : Type} (m : M St A) (k : A -> M St B) :
  keeps R m -> (forall a, keeps R (k a)) -> keeps R (bind m k).
Proof.
  intros Hm Hk s. unfold bind. specialize (Hm s).
  destruct (m s) as [[a | t] s']; simpl in *; [| exact Hm].
  eapply R_trans; [exact Hm | apply Hk].
Qed.

Lemma keeps_try_catch {A : Type} (body : M St A) (handler : Thrown -> M St A) :
  keeps R body -> (forall t, keeps R (handler t)) -> keeps R (try_catch body handler).
Proof.
  intros Hbody Hhandler s. unfold try_catch. specialize (Hbody s).
  destruct (body s) as [[a | t] s']; simpl in *; [exact Hbody |].
  eapply R_trans; [exact Hbody | apply Hhandler].
Qed.

End Frames.

Ltac keeps_step :=
  match goal with
  | |- keeps _ (bind _ _) => apply keeps_bind; [assumption | | intros]
  | |- keeps _ (try_catch _ _) => apply keeps_try_catch; [assumption | | intros]
  | |- keeps _ (ret _) => apply keeps_ret; assumption
  | |- keeps _ (liftC _) => apply keeps_liftC; assumption
  | |- keeps _ (gets _) => apply keeps_gets; assumption
  | |- keeps _ (if ?b then _ else _) => destruct b
  | |- keeps _ (match ?x with _ => _ end) => destruct x
  end.

Lemma get_field_obj_has_field (k : string) (fields inner : list (string * JsVal)) :
  get_field k fields = JObj inner -> has_field k fields = true.
Proof.
  induction fields as [| [k' v] rest IH]; simpl; [discriminate |].
  destruct (String.eqb k' k); [reflexivity | exact IH].
Qed.

Section ChannelFacts.
Context {C : Type} `{ChannelClass C}.

(** An addressed event passes steps 1 to 3 of the filter; what remains is
    the test of the message type and the dispatch. *)
Lemma onMessage_try_addressed (data message : JsVal) (s : Sys C) :
  addressed_message (this s) data = Some message ->
  Channel.onMessage_try data s =
  (provided <~ Channel.isProviderMessage message ;;
   if negb provided then ret tt else onProviderMessage message) s.
Proof.
  unfold addressed_message.
  destruct data as [| | | | | fields | |]; try discriminate.
  destruct (get_field "ethereum" fields) as [| | | | | envelope | |] eqn:Hethereum;
    try discriminate.
  destruct (strict_eq_str (get_field "channel" envelope) (providerChannelName (this s))
            && strict_eq_str (get_field "kind" envelope) (kind (this s))) eqn:Hmatch;
    try discriminate.
  intros [= <-].
  apply andb_prop in Hmatch as [Hchannel Hkind].
  unfold Channel.onMessage_try, Channel.isEthereumMessageEvent, Channel.isT.
  run_monad. simpl.
  rewrite (get_field_obj_has_field _ _ _ Hethereum). simpl.
  rewrite Hethereum. simpl.
  rewrite Hchannel. simpl.
  rewrite Hkind. simpl.
  reflexivity.
Qed.

(** An addressed event whose message has a provider-originated type reaches
    the subclass's [onProviderMessage]. *)
Lemma onMessage_try_provider_message (data message : JsVal) (type : string) (s : Sys C) :
  addressed_message (this s) data = Some message ->
  js_get message "type" = Normal (JStr type) ->
  type = "notification" \/ type = "response" ->
  Channel.onMessage_try data s = onProviderMessage message s.
Proof.
  intros Haddressed Htype Hprovider.
  rewrite (onMessage_try_addressed _ _ _ Haddressed).
  unfold Channel.isProviderMessage. run_monad.
  rewrite Htype.
  destruct Hprovider as [-> | ->]; reflexivity.
Qed.

Lemma addressed_provider_envelope (c : C) (message : JsVal) :
  addressed_message c (provider_envelope c message) = Some message.
Proof.
  unfold addressed_message, provider_envelope. simpl.
  rewrite !String.eqb_refl. reflexivity.
Qed.

(** [send] posts the client envelope, to the parent first when there is
    one, and changes nothing else. *)
Lemma send_spec (message : JsVal) (s : Sys C) :
  Channel.send message s =
  (Normal tt,
   mkSys (window s) (onMessageRef s)
         (trace s ++ posts (window s) (client_envelope (this s) message))
         (this s)).
Proof.
  unfold Channel.send, posts, client_envelope, log. run_monad. simpl.
  destruct (parent_is_other (window s)); unfold log; simpl.
  - rewrite <- app_assoc. reflexivity.
  - reflexivity.
Qed.

(** The catch block normalizes what was thrown and calls [onError] with
    the result; when the normalization itself throws, [onError] is not
    reached. *)
Lemma onMessage_catch_normalize (thrown : Thrown) (s : Sys C) :
  Channel.onMessage_catch thrown s =
  (e <~ liftC (normalize thrown) ;; onError e) s.
Proof.
  unfold Channel.onMessage_catch, normalize, json_stringify, bind, liftC.
  destruct thrown as [e | v]; [reflexivity |].
  destruct v; try reflexivity; now destruct (serialisable _).
Qed.

Lemma onMessage_caught (data : JsVal) (s s' : Sys C) (thrown : Thrown) :
  Channel.onMessage_try data s = (Abrupt thrown, s') ->
  Channel.onMessage data s = (e <~ liftC (normalize thrown) ;; onError e) s'.
Proof.
  intros Htry. unfold Channel.onMessage, try_catch. rewrite Htry.
  apply onMessage_catch_normalize.
Qed.

(** What an [Error] or a value that can be serialized is normalized to
    reaches [onError]. *)
Lemma onMessage_caught_normal (data : JsVal) (s s' : Sys C) (thrown : Thrown)
    (e : ErrorVal) :
  Channel.onMessage_try data s = (Abrupt thrown, s') ->
  normalize thrown = Normal e ->
  Channel.onMessage data s = onError e s'.
Proof.
  intros Htry Hnormal. rewrite (onMessage_caught _ _ _ _ Htry).
  unfold bind, liftC. now rewrite Hnormal.
Qed.

(** What [JSON.stringify] rejects leaves the listener as the serializer's
    [TypeError], with [onError] not called. *)
Lemma onMessage_caught_abrupt (data : JsVal) (s s' : Sys C) (thrown escaped : Thrown) :
  Channel.onMessage_try data s = (Abrupt thrown, s') ->
  normalize thrown = Abrupt escaped ->
  Channel.onMessage data s = (Abrupt escaped, s').
Proof.
  intros Htry Habrupt. rewrite (onMessage_caught _ _ _ _ Htry).
  unfold bind, liftC. now rewrite Habrupt.
Qed.

(** Events that are foreign to the channel are dropped: no handler is
    called and the state is the one before. *)
Lemma foreign_ignored (data : JsVal) (s : Sys C) :
  foreign (this s) data = true ->
  Channel.onMessage data s = (Normal tt, s).
Proof.
  unfold foreign, Channel.onMessage, Channel.onMessage_try,
    Channel.isEthereumMessageEvent, Channel.isT, Channel.isProviderMessage.
  run_monad.
  destruct data as [| | | | | fields | |]; simpl; try reflexivity; try discriminate.
  destruct (has_field "ethereum" fields); simpl; [| reflexivity].
  destruct (get_field "ethereum" fields) as [| | | | | envelope | |]; simpl;
    try reflexivity; try discriminate.
  destruct (strict_eq_str (get_field "channel" envelope) (providerChannelName (this s)));
    simpl; [| reflexivity].
  destruct (strict_eq_str (get_field "kind" envelope) (kind (this s)));
    simpl; [| reflexivity].
  destruct (get_field "message" envelope) as [| | | | | message | |]; simpl;
    try reflexivity; try discriminate.
  destruct (strict_eq_str (get_field "type" message) "notification"); simpl;
    [discriminate |].
  destruct (strict_eq_str (get_field "type" message) "response"); simpl;
    [discriminate | reflexivity].
Qed.

Lemma shutdown_spec (s : Sys C) :
  Channel.shutdown s =
  (Normal tt, set_window (removeEventListener (onMessageRef s)) s).
Proof. reflexivity. Qed.

Lemma deliver_unregistered (data : JsVal) (s : Sys C) :
  existsb (Nat.eqb (onMessageRef s)) (listeners (window s)) = false ->
  Channel.deliver data s = (Normal tt, s).
Proof.
  intros Hout. unfold Channel.deliver. run_monad. now rewrite Hout.
Qed.

Lemma deliver_registered (data : JsVal) (s : Sys C) :
  existsb (Nat.eqb (onMessageRef s)) (listeners (window s)) = true ->
  Channel.deliver data s = Channel.onMessage data s.
Proof.
  intros Hin. unfold Channel.deliver. run_monad. now rewrite Hin.
Qed.

End ChannelFacts.

Lemma removeEventListener_unregisters (l : nat) (w : Window) :
  existsb (Nat.eqb l) (listeners (removeEventListener l w)) = false.
Proof.
  unfold removeEventListener. simpl.
  induction (listeners w) as [| l' rest IH]; simpl; [reflexivity |].
  destruct (Nat.eqb l l') eqn:Heq; simpl; [exact IH |].
  rewrite Heq. exact IH.
Qed.

Lemma removeEventListener_idempotent (l : nat) (w : Window) :
  removeEventListener l (removeEventListener l w) = removeEventListener l w.
Proof.
  unfold removeEventListener. simpl. f_equal.
  induction (listeners w) as [| l' rest IH]; simpl; [reflexivity |].
  destruct (Nat.eqb l l') eqn:Heq; simpl; [exact IH |].
  rewrite Heq. simpl. now rewrite IH.
Qed.

(** ** Properties of [HotOstrichChannel] *)

Module HotOstrichFacts.
Import HotOstrichChannel.

Lemma find_lookup (fields : list (string * JsVal)) (cid : string)
    (entries : list PendingRequest) :
  get_field "correlation_id" fields = JStr cid ->
  find (JObj fields) entries = Normal (lookup_pending cid entries).
Proof.
  intros Hcid. induction entries as [| p rest IH]; simpl; [reflexivity |].
  rewrite Hcid. simpl.
  destruct (String.eqb cid (Pending.correlationId p)); [reflexivity | exact IH].
Qed.

Lemma strict_eq_str_false (v : JsVal) (s : string) :
  v <> JStr s -> strict_eq_str v s = false.
Proof.
  destruct v as [| | | | s' | | |]; simpl; try reflexivity.
  intros Hne. apply String.eqb_neq. congruence.
Qed.

Lemma find_none (fields : list (string * JsVal)) (entries : list PendingRequest) :
  (forall p, In p entries ->
             get_field "correlation_id" fields <> JStr (Pending.correlationId p)) ->
  find (JObj fields) entries = Normal None.
Proof.
  induction entries as [| p rest IH]; simpl; intros Hnone; [reflexivity |].
  rewrite strict_eq_str_false by (apply Hnone; left; reflexivity).
  apply IH. intros q Hq. apply Hnone. right. exact Hq.
Qed.


(** A response that [find] matches with the entry [p] makes its call on
    the Future of [p], unless the rejection's text cannot be built: then the
    serializer's [TypeError] is thrown with nothing called. *)
Lemma onHotOstrichResponse_matched (fields : list (string * JsVal)) (p : PendingRequest)
    (s : Sys t) :
  find (JObj fields) (pendingRequests (this s)) = Normal (Some p) ->
  onHotOstrichResponse (JObj fields) s =
  if truthy (get_field "success" fields) || serialisable (get_field "payload" fields)
  then (Normal tt, log (settlement (Pending.future p) fields) s)
  else (Abrupt (ThrowError (TypeError "JSON.stringify" (get_field "payload" fields))), s).
Proof.
  intros Hfound. unfold onHotOstrichResponse. run_monad.
  rewrite Hfound. simpl. unfold settlement, json_stringify, failure_response.
  destruct (truthy (get_field "success" fields)); [reflexivity |].
  now destruct (serialisable (get_field "payload" fields)).
Qed.

Lemma onHotOstrichResponse_missing (fields : list (string * JsVal)) (s : Sys t) :
  find (JObj fields) (pendingRequests (this s)) = Normal None ->
  onHotOstrichResponse (JObj fields) s =
  (Abrupt (ThrowError (unmatched (JObj fields))), s).
Proof.
  intros Hnone. unfold onHotOstrichResponse. run_monad.
  rewrite Hnone. unfold unmatched, json_stringify, no_matching_request.
  now destruct (serialisable (JObj fields)).
Qed.

Lemma onMessage_try_response (data : JsVal) (fields : list (string * JsVal)) (s : Sys t) :
  addressed_message (this s) data = Some (JObj fields) ->
  get_field "type" fields = JStr "response" ->
  Channel.onMessage_try data s = onHotOstrichResponse (JObj fields) s.
Proof.
  intros Haddressed Htype.
  rewrite (onMessage_try_provider_message data (JObj fields) "response" s Haddressed)
    by (simpl; first [now rewrite Htype | now right]).
  simpl. unfold onProviderMessage. run_monad. simpl.
  rewrite Htype. reflexivity.
Qed.

(** The listener on a response that [find] matches with [p]: the one call
    of [settlement], and the completion of [settled]. *)
Lemma onMessage_response_matched (data : JsVal) (fields : list (string * JsVal))
    (p : PendingRequest) (s : Sys t) :
  addressed_message (this s) data = Some (JObj fields) ->
  get_field "type" fields = JStr "response" ->
  find (JObj fields) (pendingRequests (this s)) = Normal (Some p) ->
  Channel.onMessage data s =
  (settled (hotOstrichHandlers (this s)) fields,
   log (settlement (Pending.future p) fields) s).
Proof.
  intros Haddressed Htype Hfound.
  unfold Channel.onMessage, try_catch.
  rewrite (onMessage_try_response _ _ _ Haddressed Htype).
  rewrite (onHotOstrichResponse_matched _ _ _ Hfound).
  unfold settled, settlement.
  destruct (truthy (get_field "success" fields)); [reflexivity |].
  destruct (serialisable (get_field "payload" fields)); reflexivity.
Qed.

(** The same, for the entry that bears the response's correlation id. *)
Lemma onMessage_response_found (data : JsVal) (fields : list (string * JsVal))
    (cid : string) (p : PendingRequest) (s : Sys t) :
  addressed_message (this s) data = Some (JObj fields) ->
  get_field "type" fields = JStr "response" ->
  get_field "correlation_id" fields = JStr cid ->
  lookup_pending cid (pendingRequests (this s)) = Some p ->
  Channel.onMessage data s =
  (settled (hotOstrichHandlers (this s)) fields,
   log (settlement (Pending.future p) fields) s).
Proof.
  intros Haddressed Htype Hcid Hfound.
  apply onMessage_response_matched; try assumption.
  now rewrite (find_lookup _ _ _ Hcid), Hfound.
Qed.

(** The listener on a response that is matched with no entry. *)
Lemma onMessage_response_missing (data : JsVal) (fields : list (string * JsVal))
    (s : Sys t) :
  addressed_message (this s) data = Some (JObj fields) ->
  get_field "type" fields = JStr "response" ->
  find (JObj fields) (pendingRequests (this s)) = Normal None ->
  Channel.onMessage data s =
  (HotOstrichHandlers.onError (hotOstrichHandlers (this s)) (unmatched (JObj fields)),
   log (HandlerOnError (unmatched (JObj fields))) s).
Proof.
  intros Haddressed Htype Hnone.
  unfold Channel.onMessage, try_catch.
  rewrite (onMessage_try_response _ _ _ Haddressed Htype).
  rewrite (onHotOstrichResponse_missing _ _ Hnone). reflexivity.
Qed.

(** A typed call completes normally with the Future it created, and leaves
    the state [after_issue]. *)
Lemma issue_spec (call : TypedCall) (entryTime : Z) (cid : string) (s : Sys t) :
  issue call entryTime cid s =
  (Normal (futuresCreated (this s)), after_issue call entryTime cid s).
Proof.
  unfold issue, promisify, newFuture, push. run_monad.
  rewrite send_spec. simpl.
  unfold after_issue, log, set_this, entry_of, request_of. simpl.
  rewrite <- app_assoc. reflexivity.
Qed.

(** The listener changes no field of an RPC channel, whatever the event. *)
Lemma onMessage_same_fields (data : JsVal) :
  keeps same_fields (Channel.onMessage (C := t) data).
Proof.
  assert (Hrefl : forall s : Sys t, same_fields s s) by reflexivity.
  assert (Htrans : forall a b c : Sys t,
             same_fields a b -> same_fields b c -> same_fields a c)
    by (unfold same_fields; congruence).
  assert (Hemit : forall e, keeps same_fields (emit (C := t) e))
    by (intros e s; reflexivity).
  unfold Channel.onMessage, Channel.onMessage_try, Channel.onMessage_catch,
    Channel.isEthereumMessageEvent, Channel.isT, Channel.isProviderMessage.
  simpl. unfold onProviderMessage, onError, onHotOstrichResponse,
    onHotOstrichNotification, onSignerAddressChanged, call_handler.
  repeat first [keeps_step | apply Hemit].
Qed.

Lemma lookup_pending_app (cid : string) (entries added : list PendingRequest)
    (p : PendingRequest) :
  lookup_pending cid entries = Some p ->
  lookup_pending cid (entries ++ added) = Some p.
Proof.
  unfold lookup_pending.
  induction entries as [| q rest IH]; simpl; [discriminate |].
  destruct (String.eqb cid (Pending.correlationId q)); [trivial | exact IH].
Qed.

(** Every operation leaves the table it found, with at most one entry
    appended. *)
Lemma perform_grows (op : Operation) (s : Sys t) :
  exists added, pendingRequests (this (perform op s)) = pendingRequests (this s) ++ added.
Proof.
  destruct op as [data | call entryTime cid |]; simpl.
  - exists []. rewrite app_nil_r. unfold Channel.deliver. run_monad.
    destruct (existsb (Nat.eqb (onMessageRef s)) (listeners (window s)));
      [| reflexivity].
    now rewrite (onMessage_same_fields data s).
  - rewrite issue_spec. simpl. eexists. reflexivity.
  - exists []. now rewrite app_nil_r.
Qed.

(** An entry that is matched for a correlation id is matched for it after
    any sequence of operations. *)
Lemma tracked_forever (ops : list Operation) (cid : string) (p : PendingRequest)
    (s : Sys t) :
  lookup_pending cid (pendingRequests (this s)) = Some p ->
  lookup_pending cid (pendingRequests (this (perform_all ops s))) = Some p.
Proof.
  revert s. induction ops as [| op ops IH]; intros s Hfound; [exact Hfound |].
  simpl. apply IH.
  destruct (perform_grows op s) as [added ->].
  apply lookup_pending_app, Hfound.
Qed.

End HotOstrichFacts.

(** ** Properties of [HandshakeChannel] *)

Module HandshakeFacts.
Import HandshakeChannel.

(** An assignment leaves the own property of every other key alone. *)
Lemma record_set_other (key key' : string) (value : JsVal) (c : t) :
  key' <> key ->
  knownProviders (record_set key value c) !! key' = knownProviders c !! key'.
Proof.
  intros Hne. unfold record_set.
  destruct (String.eqb key "__proto__"
            && negb (bool_decide (is_Some (knownProviders c !! "__proto__")))
            && negb (proto_is_data (knownProvidersPrototype c))).
  - now destruct value.
  - simpl. apply lookup_insert_ne. congruence.
Qed.

(** An assignment to a key other than [__proto__] writes the own property
    and nothing else. *)
Lemma record_set_plain (key : string) (value : JsVal) (c : t) :
  key <> "__proto__" ->
  record_set key value c = set_knownProviders (insert key value) c.
Proof.
  intros Hkey. unfold record_set.
  apply String.eqb_neq in Hkey. now rewrite Hkey.
Qed.


(** An assignment changes neither the handlers nor the names. *)
Lemma record_set_names (key : string) (value : JsVal) (c : t) :
  handshakeHandlers (record_set key value c) = handshakeHandlers c
  /\ providerChannelName (record_set key value c) = providerChannelName c
  /\ clientChannelName (record_set key value c) = clientChannelName c
  /\ kind (record_set key value c) = kind c.
Proof.
  unfold record_set.
  destruct (String.eqb key "__proto__"
            && negb (bool_decide (is_Some (knownProviders c !! "__proto__")))
            && negb (proto_is_data (knownProvidersPrototype c)));
    [now destruct value | now repeat split].
Qed.

(** The state after the directory is written and the callback is entered. *)
Lemma onMessage_try_announcement (data : JsVal) (fields : list (string * JsVal))
    (provider_id : JsVal) (s : Sys t) :
  addressed_message (this s) data = Some (JObj fields) ->
  get_field "type" fields = JStr "notification" ->
  get_field "kind" fields = JStr "provider_announcement" ->
  js_get (get_field "payload" fields) "provider_id" = Normal provider_id ->
  Channel.onMessage_try data s =
  (HandshakeHandlers.onProviderAnnounced (handshakeHandlers (this s))
                                         (get_field "payload" fields),
   log (HandlerOnProviderAnnounced (get_field "payload" fields))
       (set_this (record_set (to_property_key provider_id)
                             (get_field "payload" fields)) s)).
Proof.
  intros Haddressed Htype Hkind Hid.
  rewrite (onMessage_try_provider_message data (JObj fields) "notification" s Haddressed)
    by (simpl; first [now rewrite Htype | now left]).
  simpl. unfold onProviderMessage, onNotification, onProviderAnnouncement.
  run_monad. simpl.
  rewrite Htype. simpl. rewrite Hkind. simpl. rewrite Hid. simpl.
  now rewrite (proj1 (record_set_names _ _ _)).
Qed.

(** Whatever the catch block does, it leaves the instance's fields alone and
    adds to the trace at most one call of [onError]. *)
Lemma onMessage_catch_frame (error : Thrown) (s : Sys t) :
  this (snd (Channel.onMessage_catch error s)) = this s
  /\ exists rest, trace (snd (Channel.onMessage_catch error s)) = trace s ++ rest.
Proof.
  rewrite onMessage_catch_normalize. unfold bind, liftC.
  destruct (normalize error) as [e | escaped]; simpl.
  - unfold onError. run_monad. simpl.
    split; [reflexivity | exists [HandlerOnError e]; reflexivity].
  - split; [reflexivity | exists []; now rewrite app_nil_r].
Qed.

Lemma reRequestProviders_spec (s : Sys t) :
  reRequestProviders s =
  (Normal tt,
   mkSys (window s) (onMessageRef s)
         (trace s ++ posts (window s) (client_envelope (this s) client_announcement))
         (this s)).
Proof. unfold reRequestProviders, announceClient. apply send_spec. Qed.

Lemma new_spec (shared : Shared.HandshakeConstants) (w : Window) (ref : nat)
    (handlers : HandshakeHandlers.t) :
  new shared w ref handlers =
  (Normal tt,
   mkSys (addEventListener ref w) ref
         (posts w (client_envelope (this (fresh shared w ref handlers)) client_announcement))
         (this (fresh shared w ref handlers))).
Proof.
  unfold new, constructor, Channel.constructor, announceClient. run_monad. simpl.
  rewrite send_spec. simpl. unfold posts, addEventListener.
  destruct (existsb (Nat.eqb ref) (listeners w)); reflexivity.
Qed.

End HandshakeFacts.

(** ** The request/response engine: settlement and ordering *)

Section Correlation.
Import HotOstrichChannel HotOstrichFacts.

(** C1, as the code has it: a response whose correlation id is that of the
    pending entry [p] makes its one call on the Future of [p] ([resolve]
    when [success] is truthy, [reject] otherwise; only when the text of the
    rejection cannot be built, for a payload [JSON.stringify] rejects, is
    the call one of [onError] instead) and leaves the instance, and so the
    entry, as they were; a second response with the same correlation id is
    matched with [p] again and makes its call on the same Future a second
    time. Neither response reaches the no-matching-request branch, and the
    entry stays matched after any further deliveries, typed calls and
    shutdowns. *)
Theorem response_leaves_entry_tracked
    (data1 data2 : JsVal) (fields1 fields2 : list (string * JsVal))
    (cid : string) (p : PendingRequest) (s : Sys t) :
  addressed_message (this s) data1 = Some (JObj fields1) ->
  addressed_message (this s) data2 = Some (JObj fields2) ->
  get_field "type" fields1 = JStr "response" ->
  get_field "type" fields2 = JStr "response" ->
  get_field "correlation_id" fields1 = JStr cid ->
  get_field "correlation_id" fields2 = JStr cid ->
  lookup_pending cid (pendingRequests (this s)) = Some p ->
  Channel.onMessage data1 s =
    (settled (hotOstrichHandlers (this s)) fields1,
     log (settlement (Pending.future p) fields1) s)
  /\ lookup_pending cid
       (pendingRequests (this (snd (Channel.onMessage data1 s)))) = Some p
  /\ Channel.onMessage data2 (snd (Channel.onMessage data1 s)) =
    (settled (hotOstrichHandlers (this s)) fields2,
     log (settlement (Pending.future p) fields2)
         (log (settlement (Pending.future p) fields1) s))
  /\ (forall ops : list Operation,
        lookup_pending cid (pendingRequests (this (perform_all ops s))) = Some p).
Proof.
  intros Ha1 Ha2 Ht1 Ht2 Hc1 Hc2 Hfound.
  pose proof (onMessage_response_found data1 fields1 cid p s Ha1 Ht1 Hc1 Hfound) as E1.
  rewrite E1. simpl.
  split; [reflexivity |]. split; [exact Hfound |]. split.
  - exact (onMessage_response_found data2 fields2 cid p
             (log (settlement (Pending.future p) fields1) s) Ha2 Ht2 Hc2 Hfound).
  - intros ops. apply tracked_forever, Hfound.
Qed.

Lemma response_leaves_entry_tracked_witness :
  lookup_pending "X" (pendingRequests (this Sample.rpc1)) = Some Sample.entryX
  /\ (Channel.onMessage (Sample.toWallet Sample.respX) Sample.rpc1 =
        (Normal tt, log (settlement 0 Sample.respX) Sample.rpc1)
      /\ lookup_pending "X"
           (pendingRequests
              (this (snd (Channel.onMessage (Sample.toWallet Sample.respX) Sample.rpc1))))
         = Some Sample.entryX
      /\ Channel.onMessage (Sample.toWallet Sample.respXagain)
           (snd (Channel.onMessage (Sample.toWallet Sample.respX) Sample.rpc1)) =
        (Normal tt, log (settlement 0 Sample.respXagain)
                        (log (settlement 0 Sample.respX) Sample.rpc1))
      /\ (forall ops : list Operation,
            lookup_pending "X" (pendingRequests (this (perform_all ops Sample.rpc1)))
            = Some Sample.entryX)).
Proof.
  split; [reflexivity |].
  apply (response_leaves_entry_tracked
           (Sample.toWallet Sample.respX) (Sample.toWallet Sample.respXagain)
           Sample.respX Sample.respXagain "X" Sample.entryX Sample.rpc1);
    reflexivity.
Defined.

(** C1 fails as stated: after the response to X has settled its Future, the
    entry for X is still found in the table, and a second response for X
    calls [resolve] on the same Future again instead of reaching the
    no-matching-request error. *)
Lemma settled_entry_is_matched_again :
  lookup_pending "X" (pendingRequests (this Sample.rpc1Settled)) <> None
  /\ trace Sample.rpc1Settled =
     trace Sample.rpc1 ++ [FutureResolve 0 (Sample.address "0xaa")]
  /\ trace (snd (Channel.deliver (Sample.toWallet Sample.respXagain) Sample.rpc1Settled)) =
     trace Sample.rpc1 ++ [FutureResolve 0 (Sample.address "0xaa");
                           FutureResolve 0 (Sample.address "0xbb")].
Proof.
  split; [| split].
  - vm_compute. discriminate.
  - reflexivity.
  - reflexivity.
Qed.

(** C2, as the code has it: a typed call first posts the request envelope
    (to the parent window when there is another one, then to the window
    itself) and only then pushes the pending entry for the correlation id,
    all within the one call of [promisify]; the call returns the new Future
    with the entry in the table. In the events of the call, a post of the
    request precedes the push and the push precedes no post. *)
Theorem issue_posts_then_pushes
    (call : TypedCall) (entryTime : Z) (cid : string) (s : Sys t) :
  fst (issue call entryTime cid s) = Normal (futuresCreated (this s))
  /\ trace (snd (issue call entryTime cid s)) =
     trace s ++ sent_by call cid s ++ [ArrayPush (entry_of call entryTime cid s)]
  /\ pendingRequests (this (snd (issue call entryTime cid s))) =
     pendingRequests (this s) ++ [entry_of call entryTime cid s]
  /\ occurs_before (is_post_of (carries_request cid)) (is_push_for cid)
       (sent_by call cid s ++ [ArrayPush (entry_of call entryTime cid s)]) = true
  /\ occurs_before (is_push_for cid) (is_post_of (carries_request cid))
       (sent_by call cid s ++ [ArrayPush (entry_of call entryTime cid s)]) = false.
Proof.
  rewrite issue_spec. simpl.
  split; [reflexivity |]. split; [reflexivity |]. split; [reflexivity |].
  unfold sent_by, posts, client_envelope, request_of, request_message, entry_of.
  split; destruct (parent_is_other (window s)); simpl;
    rewrite ?String.eqb_refl; reflexivity.
Qed.

(** C2 fails as stated: in the trace of the call X the push of the entry
    does not come before the post of the request; the post comes first. *)
Lemma push_is_not_before_post :
  occurs_before (is_push_for "X") (is_post_of (carries_request "X"))
                (trace Sample.rpc1) = false
  /\ occurs_before (is_post_of (carries_request "X")) (is_push_for "X")
                   (trace Sample.rpc1) = true
  /\ trace Sample.rpc1 =
     [PostMessage ToSelf
        (client_envelope (this Sample.rpc0)
           (request_message "get_signer_address" "X" (JObj [])));
      ArrayPush Sample.entryX].
Proof. repeat split. Qed.


(** C5: a response that is addressed to the channel and whose correlation id
    is that of no entry of the table raises an error inside the dispatch
    (the no-matching-request error with the response spliced in, or the
    [TypeError] of [JSON.stringify] when the response cannot be spliced in);
    the listener catches it and hands it to the caller's [onError], and
    completes the way that handler completes, so normally when the handler
    returns. Nothing else is called and no field changes. *)
Theorem unmatched_response_reaches_onError
    (data : JsVal) (fields : list (string * JsVal)) (s : Sys t) :
  addressed_message (this s) data = Some (JObj fields) ->
  get_field "type" fields = JStr "response" ->
  (forall p, In p (pendingRequests (this s)) ->
             get_field "correlation_id" fields <> JStr (Pending.correlationId p)) ->
  Channel.onMessage_try data s =
    (Abrupt (ThrowError (unmatched (JObj fields))), s)
  /\ Channel.onMessage data s =
    (HotOstrichHandlers.onError (hotOstrichHandlers (this s)) (unmatched (JObj fields)),
     log (HandlerOnError (unmatched (JObj fields))) s)
  /\ (HotOstrichHandlers.onError (hotOstrichHandlers (this s))
                                 (unmatched (JObj fields)) = Normal tt ->
      fst (Channel.onMessage data s) = Normal tt).
Proof.
  intros Haddressed Htype Hnone.
  pose proof (find_none fields _ Hnone) as Hfind.
  split; [| split].
  - rewrite (onMessage_try_response _ _ _ Haddressed Htype).
    apply onHotOstrichResponse_missing, Hfind.
  - apply onMessage_response_missing; assumption.
  - intros Hquiet.
    rewrite (onMessage_response_missing _ _ _ Haddressed Htype Hfind).
    exact Hquiet.
Qed.

Lemma unmatched_response_reaches_onError_witness :
  find (JObj Sample.respZ) (pendingRequests (this Sample.rpc2)) = Normal None
  /\ (Channel.onMessage_try (Sample.toWallet Sample.respZ) Sample.rpc2 =
        (Abrupt (ThrowError
                   (NewError [Text "Received a response without finding a matching request.  Maybe it already timed out?  ";
                              Stringify (JObj Sample.respZ)])),
         Sample.rpc2)
      /\ Channel.onMessage (Sample.toWallet Sample.respZ) Sample.rpc2 =
        (Normal tt,
         log (HandlerOnError
                (NewError [Text "Received a response without finding a matching request.  Maybe it already timed out?  ";
                           Stringify (JObj Sample.respZ)]))
             Sample.rpc2)
      /\ (Normal tt = Normal tt ->
          fst (Channel.onMessage (Sample.toWallet Sample.respZ) Sample.rpc2) = Normal tt)).
Proof.
  split; [reflexivity |].
  apply (unmatched_response_reaches_onError
           (Sample.toWallet Sample.respZ) Sample.respZ Sample.rpc2);
    [reflexivity | reflexivity |].
  intros p [<- | [<- | []]]; discriminate.
Defined.

(** C6 fails on the code: line 176 builds the rejection's [Error] with
    [JSON.stringify(response.payload)] before it calls [reject]. For a
    failure response whose payload holds a BigInt the serializer raises a
    [TypeError]; the Future of the matched call X is not rejected, and the
    failure goes to the caller's [onError] instead. *)
Theorem unserialisable_failure_reaches_onError :
  lookup_pending "X" (pendingRequests (this Sample.rpc1)) = Some Sample.entryX
  /\ get_field "success" Scenario.failBig = JBool false
  /\ Channel.deliver (Sample.toWallet Scenario.failBig) Sample.rpc1 =
     (Normal tt,
      mkSys (window Sample.rpc1) (onMessageRef Sample.rpc1)
            (trace Sample.rpc1
             ++ [HandlerOnError (TypeError "JSON.stringify"
                                           (JObj [("code", JBigInt "4001")]))])
            (this Sample.rpc1)).
Proof. repeat split. Qed.



End Correlation.

(** ** The listener: filter, catch block and shutdown *)

Section Listener.
Context {C : Type} `{ChannelClass C}.

(** X22: when the dispatch of an event throws, in the filter or in the
    subclass's handler, an [Error] or a value that [JSON.stringify] accepts,
    the listener catches what was thrown and calls [onError] on it: an
    [Error] as it is, a string [str] as [new Error(str)], any other value
    [v] as [new Error(JSON.stringify(v))]. The listener then completes the
    way [onError] completes, so normally when [onError] returns. *)
Theorem dispatch_exception_normalized
    (data : JsVal) (s s' : Sys C) (thrown : Thrown) :
  Channel.onMessage_try data s = (Abrupt thrown, s') ->
  (forall v, thrown = ThrowValue v -> serialisable v = true) ->
  Channel.onMessage data s =
    onError (match thrown with
             | ThrowError e => e
             | ThrowValue (JStr str) => NewError [Text str]
             | ThrowValue v => NewError [Stringify v]
             end) s'
  /\ (forall s'',
        onError (match thrown with
                 | ThrowError e => e
                 | ThrowValue (JStr str) => NewError [Text str]
                 | ThrowValue v => NewError [Stringify v]
                 end) s' = (Normal tt, s'') ->
        Channel.onMessage data s = (Normal tt, s'')).
Proof.
  intros Htry Hserialisable.
  assert (Hlistener : Channel.onMessage data s =
            onError (match thrown with
                     | ThrowError e => e
                     | ThrowValue (JStr str) => NewError [Text str]
                     | ThrowValue v => NewError [Stringify v]
                     end) s').
  { apply (onMessage_caught_normal _ _ _ _ _ Htry).
    destruct thrown as [e | v]; [reflexivity |].
    specialize (Hserialisable v eq_refl). unfold normalize.
    destruct v; try reflexivity; now rewrite Hserialisable. }
  split; [exact Hlistener |].
  intros s'' Hquiet. now rewrite Hlistener.
Qed.


End Listener.

(** C3 fails on the code: an event whose payload is [null] is no envelope,
    yet [typeof null] is ["object"], so the shape test goes on to
    ['ethereum' in null], which raises a [TypeError]; the catch block hands
    it to [onError]. On the sample RPC channel the caller's handler is
    called. *)
Theorem null_payload_reaches_onError :
  (forall (C : Type) (H : ChannelClass C) (s : Sys C),
      Channel.onMessage JNull s = onError (TypeError "in" JNull) s)
  /\ Channel.deliver JNull Sample.rpc1 =
     (Normal tt, log (HandlerOnError (TypeError "in" JNull)) Sample.rpc1).
Proof. split; [intros; reflexivity | reflexivity]. Qed.

(** The same happens for an envelope key that holds [null], and for an
    addressed envelope without a message. *)
Lemma null_envelope_reaches_onError (C : Type) (H : ChannelClass C) (s : Sys C) :
  Channel.onMessage (JObj [("ethereum", JNull)]) s = onError (TypeError "channel" JNull) s.
Proof. reflexivity. Qed.

Lemma missing_message_reaches_onError (C : Type) (H : ChannelClass C) (s : Sys C) :
  Channel.onMessage (provider_envelope (this s) JUndefined) s =
  onError (TypeError "type" JUndefined) s.
Proof.
  unfold Channel.onMessage, try_catch.
  rewrite (onMessage_try_addressed _ JUndefined s (addressed_provider_envelope _ _)).
  reflexivity.
Qed.

(** C4 fails on the code: the last branch of the catch block evaluates
    [JSON.stringify(error)] before it calls [onError]. When the caller's
    [onProviderAnnounced] throws a BigInt, the serializer raises a
    [TypeError] inside the catch block; [onError] is never called and the
    [TypeError] leaves the listener, into the window's dispatch. *)
Theorem unserialisable_throw_escapes :
  fst (Channel.onMessage_try
         (Sample.toClient (Sample.notification (Sample.announcement "p1" "first")))
         Scenario.hsBigInt) = Abrupt (ThrowValue (JBigInt "1"))
  /\ fst (Channel.deliver
            (Sample.toClient (Sample.notification (Sample.announcement "p1" "first")))
            Scenario.hsBigInt) =
     Abrupt (ThrowError (TypeError "JSON.stringify" (JBigInt "1")))
  /\ trace (snd (Channel.deliver
                   (Sample.toClient (Sample.notification (Sample.announcement "p1" "first")))
                   Scenario.hsBigInt)) =
     trace Scenario.hsBigInt
     ++ [HandlerOnProviderAnnounced (Sample.announcement "p1" "first")].
Proof. repeat split. Qed.

Lemma dispatch_exception_normalized_witness :
  fst (Channel.onMessage_try
         (Sample.toClient (Sample.notification (Sample.announcement "p1" "first")))
         Sample.hsRefusing) = Abrupt (ThrowValue (JStr "announcement refused"))
  /\ trace (snd (Channel.onMessage
                   (Sample.toClient (Sample.notification (Sample.announcement "p1" "first")))
                   Sample.hsRefusing)) =
     trace Sample.hsRefusing
     ++ [HandlerOnProviderAnnounced (Sample.announcement "p1" "first");
         HandlerOnError (NewError [Text "announcement refused"])].
Proof.
  assert (Htry : Channel.onMessage_try
            (Sample.toClient (Sample.notification (Sample.announcement "p1" "first")))
            Sample.hsRefusing =
          (Abrupt (ThrowValue (JStr "announcement refused")),
           log (HandlerOnProviderAnnounced (Sample.announcement "p1" "first"))
               (set_this (HandshakeChannel.record_set "p1"
                            (Sample.announcement "p1" "first"))
                         Sample.hsRefusing))) by reflexivity.
  split; [now rewrite Htry |].
  assert (Hserialisable : forall v, ThrowValue (JStr "announcement refused") = ThrowValue v ->
                                    serialisable v = true)
    by (intros v [= <-]; reflexivity).
  rewrite (proj1 (dispatch_exception_normalized _ _ _ _ Htry Hserialisable)).
  reflexivity.
Defined.


(** C9: [shutdown] completes normally, takes the instance's listener off
    the window and changes neither a field of the instance nor the trace,
    so it calls no Future; the bus then delivers nothing to the instance;
    a second [shutdown] changes nothing more. For an RPC channel the table
    of pending requests is the one before. *)
Theorem shutdown_frame :
  (forall (C : Type) (H : ChannelClass C) (s : Sys C),
      fst (Channel.shutdown s) = Normal tt
      /\ this (snd (Channel.shutdown s)) = this s
      /\ trace (snd (Channel.shutdown s)) = trace s
      /\ existsb (Nat.eqb (onMessageRef s))
                 (listeners (window (snd (Channel.shutdown s)))) = false
      /\ (forall data, Channel.deliver data (snd (Channel.shutdown s)) =
                       (Normal tt, snd (Channel.shutdown s)))
      /\ Channel.shutdown (snd (Channel.shutdown s)) = Channel.shutdown s)
  /\ (forall s : Sys HotOstrichChannel.t,
        HotOstrichChannel.pendingRequests (this (snd (Channel.shutdown s))) =
        HotOstrichChannel.pendingRequests (this s)).
Proof.
  split; [| reflexivity].
  intros C H s. rewrite shutdown_spec. simpl.
  split; [reflexivity |]. split; [reflexivity |]. split; [reflexivity |].
  split; [apply removeEventListener_unregisters |].
  split.
  - intros data. apply deliver_unregistered. simpl.
    apply removeEventListener_unregisters.
  - rewrite shutdown_spec. unfold set_window. simpl.
    now rewrite removeEventListener_idempotent.
Qed.

(** ** The provider directory *)

Section Directory.
Import HandshakeChannel HandshakeFacts.



End Directory.

(** ** Whole runs: what the filter and the handlers do on every event *)

Lemma strict_eq_str_true (v : JsVal) (s : string) :
  strict_eq_str v s = true -> v = JStr s.
Proof.
  destruct v as [| | | | s' | | |]; simpl; try discriminate.
  intros Heq. apply String.eqb_eq in Heq. now subst.
Qed.

Section FilterFacts.
Context {C : Type} `{ChannelClass C}.

Lemma filter_cases (data : JsVal) (s : Sys C) :
  foreign (this s) data = true
  \/ (exists op v,
        Channel.onMessage_try data s = (Abrupt (ThrowError (TypeError op v)), s))
  \/ (exists fields type,
        addressed_message (this s) data = Some (JObj fields)
        /\ get_field "type" fields = JStr type
        /\ (type = "notification" \/ type = "response")).
Proof.
  unfold foreign, addressed_message, Channel.onMessage_try,
    Channel.isEthereumMessageEvent, Channel.isT, Channel.isProviderMessage.
  run_monad.
  destruct data as [| | | | | fields | |]; simpl; auto.
  { right. left. eauto. }
  destruct (has_field "ethereum" fields) eqn:Hhas; simpl; auto.
  destruct (get_field "ethereum" fields) as [| | | | | envelope | |]; simpl; auto.
  { right. left. eauto. }
  destruct (strict_eq_str (get_field "channel" envelope) (providerChannelName (this s)));
    simpl; auto.
  destruct (strict_eq_str (get_field "kind" envelope) (kind (this s)));
    simpl; auto.
  destruct (get_field "message" envelope) as [| | | | | message | |]; simpl; auto.
  { right. left. eauto. }
  { right. left. eauto. }
  destruct (strict_eq_str (get_field "type" message) "notification") eqn:Hn; simpl.
  { right. right. exists message, "notification".
    split; [reflexivity |]. split; [now apply strict_eq_str_true | now left]. }
  destruct (strict_eq_str (get_field "type" message) "response") eqn:Hr; simpl; auto.
  right. right. exists message, "response".
  split; [reflexivity |]. split; [now apply strict_eq_str_true | now right].
Qed.
End FilterFacts.

Module HotOstrichOutcomes.
Import HotOstrichChannel HotOstrichFacts.

Lemma find_obj_cases (fields : list (string * JsVal)) (entries : list PendingRequest) :
  find (JObj fields) entries = Normal None
  \/ exists p, find (JObj fields) entries = Normal (Some p) /\ In p entries.
Proof.
  induction entries as [| q rest IH]; simpl; [now left |].
  destruct (strict_eq_str (get_field "correlation_id" fields) (Pending.correlationId q)).
  - right. exists q. split; [reflexivity | now left].
  - destruct IH as [Hnone | (p & Hfound & Hin)]; [now left |].
    right. exists p. split; [exact Hfound | now right].
Qed.

Lemma onError_state (e : ErrorVal) (s : Sys t) :
  snd (onError e s) = log (HandlerOnError e) s.
Proof.
  unfold onError. run_monad. simpl.
  now destruct (HotOstrichHandlers.onError (hotOstrichHandlers (this s)) e).
Qed.

Lemma onMessage_catch_state (thrown : Thrown) (s : Sys t) :
  snd (Channel.onMessage_catch thrown s) =
  match normalize thrown with
  | Normal e => log (HandlerOnError e) s
  | Abrupt _ => s
  end.
Proof.
  rewrite onMessage_catch_normalize. unfold bind, liftC.
  destruct (normalize thrown) as [e | escaped]; [apply onError_state | reflexivity].
Qed.

Lemma state_unchanged {C : Type} (s : Sys C) :
  s = mkSys (window s) (onMessageRef s) (trace s ++ []) (this s).
Proof. rewrite app_nil_r. now destruct s. Qed.

(** Every delivery leaves the window and the fields alone and adds to the
    trace one of the event lists of [delivery_events]. *)
Lemma onMessage_outcome (data : JsVal) (s : Sys t) :
  exists added,
    delivery_events s added
    /\ snd (Channel.onMessage data s) =
       mkSys (window s) (onMessageRef s) (trace s ++ added) (this s).
Proof.
  destruct (filter_cases data s) as [Hforeign | [(op & v & Htry) | Hmine]].
  - exists []. split; [constructor |].
    rewrite (foreign_ignored _ _ Hforeign). apply state_unchanged.
  - exists [HandlerOnError (TypeError op v)]. split; [constructor |].
    rewrite (onMessage_caught_normal _ _ _ _ (TypeError op v) Htry eq_refl).
    apply onError_state.
  - destruct Hmine as (fields & type & Haddressed & Htype & [-> | ->]).
    + unfold Channel.onMessage, try_catch.
      rewrite (onMessage_try_provider_message data (JObj fields) "notification" s Haddressed)
        by (simpl; first [now rewrite Htype | now left]).
      simpl. unfold onProviderMessage, onHotOstrichNotification, onSignerAddressChanged.
      run_monad. simpl. rewrite Htype. simpl.
      destruct (strict_eq_str (get_field "kind" fields) "signer_address_changed"); simpl.
      * destruct (js_get (get_field "payload" fields) "address") as [address | thrown];
          simpl.
        -- destruct (HotOstrichHandlers.onSignerAddressChanged
                       (hotOstrichHandlers (this s)) address) as [[] | thrown].
           ++ exists [HandlerOnSignerAddressChanged address].
              split; [constructor | reflexivity].
           ++ rewrite onMessage_catch_state.
              destruct (normalize thrown) as [e | escaped].
              ** exists [HandlerOnSignerAddressChanged address; HandlerOnError e].
                 split; [constructor |]. unfold log. simpl.
                 now rewrite <- app_assoc.
              ** exists [HandlerOnSignerAddressChanged address].
                 split; [constructor | reflexivity].
        -- rewrite onMessage_catch_state.
           destruct (normalize thrown) as [e | escaped].
           ++ exists [HandlerOnError e]. split; [constructor | reflexivity].
           ++ exists []. split; [constructor | apply state_unchanged].
      * eexists. split; [apply error_reported |]. reflexivity.
    + destruct (find_obj_cases fields (pendingRequests (this s)))
        as [Hnone | (p & Hfound & Hin)].
      * exists [HandlerOnError (unmatched (JObj fields))].
        split; [constructor |].
        now rewrite (onMessage_response_missing _ _ _ Haddressed Htype Hnone).
      * exists [settlement (Pending.future p) fields].
        split; [now constructor |].
        now rewrite (onMessage_response_matched _ _ _ _ Haddressed Htype Hfound).
Qed.
End HotOstrichOutcomes.

Module HotOstrichInvariant.
Import HotOstrichChannel HotOstrichFacts HotOstrichOutcomes.

Lemma futures_below_mono (n m : nat) (events : list Event) :
  n <= m -> futures_below n events -> futures_below m events.
Proof.
  intros Hle. unfold futures_below. apply List.Forall_impl.
  intros e. destruct (future_called_by e); [lia | trivial].
Qed.

Lemma futures_in_order_bound (entries : list PendingRequest) (p : PendingRequest) :
  futures_in_order entries -> In p entries -> Pending.future p < length entries.
Proof.
  unfold futures_in_order. intros Horder Hin.
  apply (in_map Pending.future) in Hin. rewrite Horder in Hin.
  apply in_seq in Hin. lia.
Qed.

Lemma settlement_future (future : nat) (fields : list (string * JsVal)) :
  future_called_by (settlement future fields) = Some future
  \/ future_called_by (settlement future fields) = None.
Proof.
  unfold settlement.
  destruct (truthy (get_field "success" fields)); [now left |].
  destruct (serialisable (get_field "payload" fields)); [now left | now right].
Qed.

Lemma delivery_events_below (s : Sys t) (added : list Event) :
  futures_in_order (pendingRequests (this s)) ->
  delivery_events s added ->
  futures_below (length (pendingRequests (this s))) added.
Proof.
  intros Horder Hadded. unfold futures_below.
  destruct Hadded as [| e | p fields Hin | address | address e];
    repeat constructor.
  destruct (settlement_future (Pending.future p) fields) as [-> | ->];
    [now apply futures_in_order_bound | trivial].
Qed.

Lemma posts_below (n : nat) (w : Window) (envelope : JsVal) :
  futures_below n (posts w envelope).
Proof. unfold posts, futures_below. destruct (parent_is_other w); repeat constructor. Qed.

Lemma perform_invariant (op : Operation) (s : Sys t) :
  run_invariant s -> run_invariant (perform op s).
Proof.
  intros (Horder & Hlength & Htrace).
  destruct op as [data | call entryTime cid |]; simpl.
  - unfold Channel.deliver. run_monad.
    destruct (existsb (Nat.eqb (onMessageRef s)) (listeners (window s)));
      [| now repeat split].
    destruct (onMessage_outcome data s) as (added & Hadded & ->).
    unfold run_invariant. simpl.
    repeat split; try assumption.
    apply Forall_app. split; [exact Htrace |].
    rewrite <- Hlength. now apply delivery_events_below.
  - rewrite issue_spec. unfold run_invariant, after_issue, entry_of. simpl.
    repeat split.
    + unfold futures_in_order in *. rewrite map_app, length_app, Horder. simpl.
      rewrite Nat.add_1_r, seq_S, <- Hlength. reflexivity.
    + rewrite length_app. simpl. lia.
    + apply Forall_app. split; [now apply (futures_below_mono _ _ _ (Nat.le_succ_diag_r _)) |].
      apply Forall_app. split; [apply posts_below | repeat constructor].
  - now repeat split.
Qed.

Lemma perform_all_invariant (ops : list Operation) (s : Sys t) :
  run_invariant s -> run_invariant (perform_all ops s).
Proof.
  revert s. induction ops as [| op ops IH]; intros s Hs; [exact Hs |].
  simpl. apply IH, perform_invariant, Hs.
Qed.

Lemma new_invariant (shared : Shared.HotOstrichConstants) (w : Window) (ref : nat)
    (id : string) (handlers : HotOstrichHandlers.t) :
  run_invariant (snd (new shared w ref id handlers)).
Proof. repeat split; constructor. Qed.

End HotOstrichInvariant.

Section NameFacts.
Context {C : Type} `{ChannelClass C}.


Lemma foreign_names (c c' : C) (data : JsVal) :
  providerChannelName c' = providerChannelName c ->
  kind c' = kind c ->
  foreign c' data = foreign c data.
Proof. intros Hname Hkind. unfold foreign. now rewrite Hname, Hkind. Qed.

Lemma deliver_foreign (data : JsVal) (s : Sys C) :
  foreign (this s) data = true -> Channel.deliver data s = (Normal tt, s).
Proof.
  intros Hforeign. unfold Channel.deliver. run_monad.
  destruct (existsb (Nat.eqb (onMessageRef s)) (listeners (window s)));
    [now apply foreign_ignored | reflexivity].
Qed.

(** An envelope the channel builds for a client message is foreign to the
    channel itself: the message type is none a provider sends. *)
Lemma client_envelope_foreign (c : C) (fields : list (string * JsVal)) (type : string) :
  get_field "type" fields = JStr type ->
  type <> "notification" -> type <> "response" ->
  foreign c (client_envelope c (JObj fields)) = true.
Proof.
  intros Htype Hn Hr. unfold foreign, client_envelope. simpl.
  destruct (String.eqb (clientChannelName c) (providerChannelName c)); simpl;
    [| reflexivity].
  rewrite String.eqb_refl. simpl. rewrite Htype. simpl.
  apply String.eqb_neq in Hn, Hr. now rewrite Hn, Hr.
Qed.

End NameFacts.

Lemma get_field_absent (k : string) (fields : list (string * JsVal)) :
  has_field k fields = false -> get_field k fields = JUndefined.
Proof.
  induction fields as [| [k' v] rest IH]; simpl; [reflexivity |].
  destruct (String.eqb k' k); simpl; [discriminate | exact IH].
Qed.

Lemma append_cancel (prefix a b : string) :
  String.append prefix a = String.append prefix b -> a = b.
Proof.
  induction prefix as [| ch prefix IH]; simpl; [trivial |].
  intros [= Heq]. now apply IH.
Qed.

Lemma filter_app_absent (l : nat) (ls : list nat) :
  existsb (Nat.eqb l) ls = false ->
  List.filter (fun l' => negb (Nat.eqb l l')) (ls ++ [l]) = ls.
Proof.
  induction ls as [| l' rest IH]; simpl.
  - now rewrite Nat.eqb_refl.
  - destruct (Nat.eqb l l') eqn:Heq; simpl; [discriminate |].
    intros Hrest. now rewrite IH.
Qed.

Lemma existsb_filter_other (l l' : nat) (ls : list nat) :
  l' <> l ->
  existsb (Nat.eqb l') (List.filter (fun x => negb (Nat.eqb l x)) ls) =
  existsb (Nat.eqb l') ls.
Proof.
  intros Hne. induction ls as [| x rest IH]; simpl; [reflexivity |].
  destruct (Nat.eqb l x) eqn:Hlx; simpl.
  - apply Nat.eqb_eq in Hlx. subst x.
    destruct (Nat.eqb l' l) eqn:Hl'; [apply Nat.eqb_eq in Hl'; contradiction |].
    simpl. exact IH.
  - now rewrite IH.
Qed.

Module HotOstrichNames.
Import HotOstrichChannel HotOstrichFacts HotOstrichOutcomes HotOstrichInvariant.

Lemma perform_names (op : Operation) (s : Sys t) :
  providerChannelName (this (perform op s)) = providerChannelName (this s)
  /\ kind (this (perform op s)) = kind (this s).
Proof.
  destruct op as [data | call entryTime cid |]; simpl.
  - unfold Channel.deliver. run_monad.
    destruct (existsb (Nat.eqb (onMessageRef s)) (listeners (window s)));
      [| now split].
    now rewrite (onMessage_same_fields data s).
  - rewrite issue_spec. now split.
  - now split.
Qed.

Lemma perform_all_names (ops : list Operation) (s : Sys t) :
  providerChannelName (this (perform_all ops s)) = providerChannelName (this s)
  /\ kind (this (perform_all ops s)) = kind (this s).
Proof.
  revert s. induction ops as [| op ops IH]; intros s; [now split |].
  simpl. destruct (IH (perform op s)) as [-> ->]. apply perform_names.
Qed.



Lemma deliveries_unregistered (events : list JsVal) (s : Sys t) :
  existsb (Nat.eqb (onMessageRef s)) (listeners (window s)) = false ->
  perform_all (map Deliver events) s = s.
Proof.
  intros Hout. induction events as [| data rest IH]; [reflexivity |].
  simpl. now rewrite (deliver_unregistered data s Hout).
Qed.


End HotOstrichNames.

Module HandshakeSteps.
Import HandshakeChannel HandshakeFacts.

Lemma record_set_remembers (key k : string) (value : JsVal) (c : t) :
  is_Some (knownProviders c !! k) ->
  is_Some (knownProviders (record_set key value c) !! k).
Proof.
  intros Hknown. unfold record_set.
  destruct (String.eqb key "__proto__"
            && negb (bool_decide (is_Some (knownProviders c !! "__proto__")))
            && negb (proto_is_data (knownProvidersPrototype c)));
    [now destruct value |].
  simpl. destruct (decide (key = k)) as [-> | Hne].
  - rewrite lookup_insert_eq. eauto.
  - now rewrite lookup_insert_ne.
Qed.

Lemma filter_is_post_log (e : Event) (events : list Event) :
  is_post e = false ->
  List.filter is_post (events ++ [e]) = List.filter is_post events.
Proof.
  intros He. rewrite List.filter_app. simpl. rewrite He. apply app_nil_r.
Qed.

(** The listener posts nothing and leaves the window and the names alone. *)
Lemma onMessage_quiet (data : JsVal) :
  keeps quiet_step (Channel.onMessage (C := t) data).
Proof.
  assert (Hrefl : forall s : Sys t, quiet_step s s) by (intros s; now repeat split).
  assert (Htrans : forall a b c : Sys t,
             quiet_step a b -> quiet_step b c -> quiet_step a c).
  { unfold quiet_step. intros a b c (? & ? & ? & ?) (? & ? & ? & ?).
    repeat split; congruence. }
  assert (Hemit : forall e, is_post e = false -> keeps quiet_step (emit (C := t) e)).
  { intros e He s. repeat split. simpl. now apply filter_is_post_log. }
  assert (Hset : forall key value,
             keeps quiet_step (modify (set_this (record_set key value)))).
  { intros key value s.
    destruct (record_set_names key value (this s)) as (_ & _ & Hclient & Hkind).
    now repeat split. }
  unfold Channel.onMessage, Channel.onMessage_try, Channel.onMessage_catch,
    Channel.isEthereumMessageEvent, Channel.isT, Channel.isProviderMessage.
  simpl. unfold onProviderMessage, onError, onNotification, onProviderAnnouncement,
    call_handler.
  repeat first [keeps_step | apply Hemit; reflexivity | apply Hset].
Qed.

(** The listener removes no provider from the directory. *)
Lemma onMessage_remembers (data : JsVal) :
  keeps remembers (Channel.onMessage (C := t) data).
Proof.
  assert (Hrefl : forall s : Sys t, remembers s s) by (intros s k Hk; exact Hk).
  assert (Htrans : forall a b c : Sys t,
             remembers a b -> remembers b c -> remembers a c)
    by (unfold remembers; auto).
  assert (Hemit : forall e, keeps remembers (emit (C := t) e))
    by (intros e s k Hk; exact Hk).
  assert (Hset : forall key value,
             keeps remembers (modify (set_this (record_set key value))))
    by (intros key value s k Hk; simpl; now apply record_set_remembers).
  unfold Channel.onMessage, Channel.onMessage_try, Channel.onMessage_catch,
    Channel.isEthereumMessageEvent, Channel.isT, Channel.isProviderMessage.
  simpl. unfold onProviderMessage, onError, onNotification, onProviderAnnouncement,
    call_handler.
  repeat first [keeps_step | apply Hemit | apply Hset].
Qed.

Lemma directory_perform_remembers (op : DirectoryOperation) (s : Sys t) :
  remembers s (directory_perform op s).
Proof.
  destruct op as [data | |]; simpl.
  - unfold Channel.deliver. run_monad.
    destruct (existsb (Nat.eqb (onMessageRef s)) (listeners (window s)));
      [apply onMessage_remembers | intros k Hk; exact Hk].
  - rewrite reRequestProviders_spec. intros k Hk. exact Hk.
  - intros k Hk. exact Hk.
Qed.

Lemma posts_parent (w w' : Window) (envelope : JsVal) :
  parent_is_other w' = parent_is_other w -> posts w' envelope = posts w envelope.
Proof. intros Hparent. unfold posts. now rewrite Hparent. Qed.

Lemma filter_is_post_posts (w : Window) (envelope : JsVal) :
  List.filter is_post (posts w envelope) = posts w envelope.
Proof. unfold posts. now destruct (parent_is_other w). Qed.

(** What one operation adds to the posts of the trace, and what it keeps. *)
Lemma directory_perform_posts (op : DirectoryOperation) (s : Sys t) :
  parent_is_other (window (directory_perform op s)) = parent_is_other (window s)
  /\ clientChannelName (this (directory_perform op s)) = clientChannelName (this s)
  /\ kind (this (directory_perform op s)) = kind (this s)
  /\ List.filter is_post (trace (directory_perform op s)) =
     List.filter is_post (trace s)
     ++ match op with
        | ReRequest => posts (window s) (client_envelope (this s) client_announcement)
        | _ => []
        end.
Proof.
  destruct op as [data | |]; simpl.
  - rewrite app_nil_r. unfold Channel.deliver. run_monad.
    destruct (existsb (Nat.eqb (onMessageRef s)) (listeners (window s)));
      [| now repeat split].
    destruct (onMessage_quiet data s) as (-> & -> & -> & ->). now repeat split.
  - rewrite reRequestProviders_spec. simpl.
    rewrite List.filter_app, filter_is_post_posts. now repeat split.
  - rewrite app_nil_r. now repeat split.
Qed.

Lemma directory_perform_all_posts (ops : list DirectoryOperation) (s : Sys t) :
  List.filter is_post (trace (directory_perform_all ops s)) =
  List.filter is_post (trace s)
  ++ concat (repeat (posts (window s) (client_envelope (this s) client_announcement))
                    (rerequests ops)).
Proof.
  revert s. induction ops as [| op ops IH]; intros s; simpl.
  - now rewrite app_nil_r.
  - rewrite IH.
    destruct (directory_perform_posts op s) as (Hparent & Hname & Hkind & ->).
    rewrite (posts_parent _ _ _ Hparent).
    unfold client_envelope. simpl. rewrite Hname, Hkind.
    destruct op; simpl; rewrite <- ?app_assoc; reflexivity.
Qed.

End HandshakeSteps.

(** ** Further properties of the listener *)

Section ListenerRuns.
Context {C : Type} `{ChannelClass C}.


(** X2: every event falls in one of three cases. It is foreign and
    dropped; or the filter itself fails on it with a [TypeError] of the
    language, which is handed to [onError]; or it is addressed to the
    channel with a message of type [notification] or [response], and the
    listener runs the subclass's [onProviderMessage] on that message under
    the catch block. *)
Theorem listener_trichotomy (data : JsVal) (s : Sys C) :
  (foreign (this s) data = true /\ Channel.onMessage data s = (Normal tt, s))
  \/ (exists op v, Channel.onMessage data s = onError (TypeError op v) s)
  \/ (exists fields type,
        addressed_message (this s) data = Some (JObj fields)
        /\ get_field "type" fields = JStr type
        /\ (type = "notification" \/ type = "response")
        /\ Channel.onMessage data s =
           try_catch (onProviderMessage (JObj fields)) Channel.onMessage_catch s).
Proof.
  destruct (filter_cases data s) as [Hforeign | [(op & v & Htry) | Hmine]].
  - left. split; [exact Hforeign | now apply foreign_ignored].
  - right. left. exists op, v. now rewrite (onMessage_caught _ _ _ _ Htry).
  - right. right. destruct Hmine as (fields & type & Haddressed & Htype & Hprovider).
    exists fields, type. repeat split; try assumption.
    unfold Channel.onMessage, try_catch.
    rewrite (onMessage_try_provider_message data (JObj fields) type s Haddressed);
      [reflexivity | simpl; now rewrite Htype | exact Hprovider].
Qed.

(** X5: when the instance's listener is not yet on the window, the
    constructor registers it, so the window delivers events to it, and a
    [shutdown] right after gives back the state before the constructor. *)
Theorem constructor_shutdown_round_trip (s : Sys C) :
  existsb (Nat.eqb (onMessageRef s)) (listeners (window s)) = false ->
  snd (Channel.shutdown (snd (Channel.constructor s))) = s
  /\ forall data,
      Channel.deliver data (snd (Channel.constructor s)) =
      Channel.onMessage data (snd (Channel.constructor s)).
Proof.
  intros Hout. unfold Channel.constructor, Channel.shutdown. run_monad. simpl.
  unfold set_window, addEventListener, removeEventListener. rewrite Hout. simpl.
  split.
  - rewrite (filter_app_absent _ _ Hout). now destruct s as [[parent ls] ref events c].
  - intros data. apply deliver_registered. simpl.
    rewrite existsb_app. simpl. rewrite Nat.eqb_refl. apply orb_true_r.
Qed.

(** X6: [shutdown] takes only the instance's own listener off the window:
    every other listener is registered afterwards exactly when it was
    before, and the parent is the one before. *)
Theorem shutdown_keeps_other_listeners (other : nat) (s : Sys C) :
  other <> onMessageRef s ->
  existsb (Nat.eqb other) (listeners (window (snd (Channel.shutdown s)))) =
    existsb (Nat.eqb other) (listeners (window s))
  /\ parent_is_other (window (snd (Channel.shutdown s))) = parent_is_other (window s).
Proof.
  intros Hother. rewrite shutdown_spec. simpl.
  split; [now apply existsb_filter_other | reflexivity].
Qed.

End ListenerRuns.

(** X3: what a channel posts, it does not take for a provider's message:
    the envelope of any typed call and the envelope of the client
    announcement, delivered back to the channel that built them, are
    dropped, also when the client and provider channel names coincide. *)
Theorem own_envelope_dropped :
  (forall (call : HotOstrichChannel.TypedCall) (cid : string) (s : Sys HotOstrichChannel.t),
      Channel.onMessage (client_envelope (this s) (request_of call cid)) s = (Normal tt, s))
  /\ (forall s : Sys HandshakeChannel.t,
        Channel.onMessage
          (client_envelope (this s) HandshakeChannel.client_announcement) s = (Normal tt, s)).
Proof.
  split.
  - intros call cid s. apply foreign_ignored.
    apply (client_envelope_foreign _ _ "request"); [reflexivity | discriminate | discriminate].
  - intros s. apply foreign_ignored.
    apply (client_envelope_foreign _ _ "broadcast"); [reflexivity | discriminate | discriminate].
Qed.


Lemma constructor_shutdown_round_trip_witness :
  existsb (Nat.eqb (onMessageRef Scenario.rpcBusy)) (listeners (window Scenario.rpcBusy)) = false
  /\ (snd (Channel.shutdown (snd (Channel.constructor Scenario.rpcBusy))) = Scenario.rpcBusy
      /\ forall data,
          Channel.deliver data (snd (Channel.constructor Scenario.rpcBusy)) =
          Channel.onMessage data (snd (Channel.constructor Scenario.rpcBusy))).
Proof.
  split; [reflexivity |].
  apply (constructor_shutdown_round_trip Scenario.rpcBusy). reflexivity.
Defined.

Lemma shutdown_keeps_other_listeners_witness :
  listeners (window (snd (Channel.constructor Scenario.rpcBusy))) = [4; 9; 1]
  /\ (existsb (Nat.eqb 9)
        (listeners (window (snd (Channel.shutdown (snd (Channel.constructor Scenario.rpcBusy))))))
      = existsb (Nat.eqb 9) (listeners (window (snd (Channel.constructor Scenario.rpcBusy))))
      /\ parent_is_other
           (window (snd (Channel.shutdown (snd (Channel.constructor Scenario.rpcBusy)))))
         = parent_is_other (window (snd (Channel.constructor Scenario.rpcBusy)))).
Proof.
  split; [reflexivity |].
  apply (shutdown_keeps_other_listeners 9 (snd (Channel.constructor Scenario.rpcBusy))).
  discriminate.
Defined.

(** ** Further properties of the request/response engine *)

Section Engine.
Import HotOstrichChannel HotOstrichFacts HotOstrichOutcomes HotOstrichInvariant HotOstrichNames.

(** X4: sessions with different providers do not interfere. Whatever has
    happened to the channel created for the provider [idB], an envelope on
    the provider channel of another provider [idA] is dropped by it, with
    any message inside. *)
Theorem other_provider_envelope_dropped
    (shared : Shared.HotOstrichConstants) (w : Window) (ref : nat)
    (handlers : HotOstrichHandlers.t) (idA idB : string)
    (ops : list Operation) (message : JsVal) :
  idA <> idB ->
  Channel.deliver
    (JObj [("ethereum",
            JObj [("channel",
                   JStr (String.append (Shared.HO_PROVIDER_CHANNEL_PREFIX shared) idA));
                  ("kind", JStr (Shared.HO_KIND shared));
                  ("message", message)])])
    (perform_all ops (snd (new shared w ref idB handlers))) =
  (Normal tt, perform_all ops (snd (new shared w ref idB handlers))).
Proof.
  intros Hdistinct. apply deliver_foreign.
  destruct (perform_all_names ops (snd (new shared w ref idB handlers))) as [Hname Hkind].
  rewrite (foreign_names (H := hot_ostrich_channel)
             (this (snd (new shared w ref idB handlers)))
             (this (perform_all ops (snd (new shared w ref idB handlers)))) _ Hname Hkind).
  unfold foreign. simpl.
  destruct (String.eqb (String.append (Shared.HO_PROVIDER_CHANNEL_PREFIX shared) idA)
                       (String.append (Shared.HO_PROVIDER_CHANNEL_PREFIX shared) idB))
    eqn:Heq; [| reflexivity].
  apply String.eqb_eq, append_cancel in Heq. contradiction.
Qed.

(** X7: throughout the life of an RPC channel the table holds one entry per
    Future created, in the order of creation: the entry at position [i]
    holds the Future [i], so no two calls share a Future. *)
Theorem futures_are_distinct
    (shared : Shared.HotOstrichConstants) (w : Window) (ref : nat) (id : string)
    (handlers : HotOstrichHandlers.t) (ops : list Operation) :
  futures_in_order
    (pendingRequests (this (perform_all ops (snd (new shared w ref id handlers)))))
  /\ length (pendingRequests (this (perform_all ops (snd (new shared w ref id handlers)))))
     = futuresCreated (this (perform_all ops (snd (new shared w ref id handlers))))
  /\ NoDup (map Pending.future
              (pendingRequests (this (perform_all ops (snd (new shared w ref id handlers)))))).
Proof.
  destruct (perform_all_invariant ops _ (new_invariant shared w ref id handlers))
    as (Horder & Hlength & _).
  split; [exact Horder |]. split; [exact Hlength |].
  rewrite Horder. apply NoDup_seq.
Qed.

(** X8: throughout the life of an RPC channel, every [resolve] and [reject]
    in the trace is a call on the Future of an entry of the table: the
    listener never settles a Future that no typed call created. *)
Theorem only_issued_futures_are_called
    (shared : Shared.HotOstrichConstants) (w : Window) (ref : nat) (id : string)
    (handlers : HotOstrichHandlers.t) (ops : list Operation) :
  Forall (fun e =>
            match future_called_by e with
            | Some future =>
                exists p,
                  In p (pendingRequests
                          (this (perform_all ops (snd (new shared w ref id handlers)))))
                  /\ Pending.future p = future
            | None => True
            end)
         (trace (perform_all ops (snd (new shared w ref id handlers)))).
Proof.
  destruct (perform_all_invariant ops _ (new_invariant shared w ref id handlers))
    as (Horder & Hlength & Htrace).
  revert Htrace. unfold futures_below. apply List.Forall_impl.
  intros e. destruct (future_called_by e) as [future |]; [| trivial].
  intros Hbelow. rewrite <- Hlength in Hbelow.
  assert (Hin : In future (seq 0 (length (pendingRequests
            (this (perform_all ops (snd (new shared w ref id handlers))))))))
    by (apply in_seq; lia).
  rewrite <- Horder in Hin. apply in_map_iff in Hin as (p & Hp & Hin).
  exists p. now split.
Qed.

(** X9: what the channel's own code does in the delivery of one event to an
    RPC channel. It changes neither the window nor a field of the instance;
    to the trace it adds nothing, or one call of [onError], or one call on
    the Future of an entry of the table, or one call of
    [onSignerAddressChanged] and after it at most one call of [onError]. So
    the listener calls at most one Future per event, and none of its own
    statements posts a message or pushes an entry. A call of a caller's
    handler is one event here: the typed calls or the [shutdown] a handler's
    body may make are operations of their own and not covered. *)
Theorem delivery_outcome (data : JsVal) (s : Sys t) :
  exists added,
    delivery_events s added
    /\ snd (Channel.deliver data s) =
       mkSys (window s) (onMessageRef s) (trace s ++ added) (this s).
Proof.
  unfold Channel.deliver. run_monad.
  destruct (existsb (Nat.eqb (onMessageRef s)) (listeners (window s))).
  - apply onMessage_outcome.
  - exists []. split; [constructor |]. simpl. rewrite app_nil_r.
    now destruct s.
Qed.


(** X11: a response whose [success] is truthy and that is matched with the
    pending entry [p] makes exactly one call, [resolve] on the Future of [p]
    with the response's payload; the listener returns normally and nothing
    else changes. *)
Theorem success_response_resolves_its_call
    (data : JsVal) (fields : list (string * JsVal)) (cid : string)
    (p : PendingRequest) (s : Sys t) :
  addressed_message (this s) data = Some (JObj fields) ->
  get_field "type" fields = JStr "response" ->
  get_field "correlation_id" fields = JStr cid ->
  lookup_pending cid (pendingRequests (this s)) = Some p ->
  truthy (get_field "success" fields) = true ->
  Channel.onMessage data s =
    (Normal tt,
     mkSys (window s) (onMessageRef s)
           (trace s ++ [FutureResolve (Pending.future p) (get_field "payload" fields)])
           (this s)).
Proof.
  intros Haddressed Htype Hcid Hfound Hsuccess.
  rewrite (onMessage_response_found _ _ _ _ _ Haddressed Htype Hcid Hfound).
  unfold settled, settlement, log. now rewrite Hsuccess.
Qed.

(** X12: a response that carries no [success] field at all counts as a
    failure: matched with the pending entry [p], and with a payload that
    [JSON.stringify] accepts, it calls [reject] on the Future of [p] with
    the [Error] whose text is "Failure response from provider.  " followed
    by the serialized payload; the listener returns normally and nothing
    else changes. *)
Theorem response_without_success_rejects
    (data : JsVal) (fields : list (string * JsVal)) (cid : string)
    (p : PendingRequest) (s : Sys t) :
  addressed_message (this s) data = Some (JObj fields) ->
  get_field "type" fields = JStr "response" ->
  get_field "correlation_id" fields = JStr cid ->
  lookup_pending cid (pendingRequests (this s)) = Some p ->
  has_field "success" fields = false ->
  serialisable (get_field "payload" fields) = true ->
  Channel.onMessage data s =
    (Normal tt,
     mkSys (window s) (onMessageRef s)
           (trace s ++ [FutureReject (Pending.future p)
                          (NewError [Text "Failure response from provider.  ";
                                     Stringify (get_field "payload" fields)])])
           (this s)).
Proof.
  intros Haddressed Htype Hcid Hfound Habsent Hserialisable.
  rewrite (onMessage_response_found _ _ _ _ _ Haddressed Htype Hcid Hfound).
  unfold settled, settlement, log.
  now rewrite (get_field_absent _ _ Habsent), Hserialisable.
Qed.

(** X23: a response with [success] equal to [false] that is matched with
    the pending entry [p], and whose payload [JSON.stringify] accepts, makes
    exactly one call: [reject] on the Future of [p] with the [Error] whose
    text is "Failure response from provider.  " followed by the serialized
    payload. The listener completes normally and the state is otherwise the
    one before: no [resolve], no call on another Future, no [onError], and
    the table as it was. *)
Theorem failure_response_rejects_its_call
    (data : JsVal) (fields : list (string * JsVal)) (cid : string)
    (p : PendingRequest) (s : Sys t) :
  addressed_message (this s) data = Some (JObj fields) ->
  get_field "type" fields = JStr "response" ->
  get_field "correlation_id" fields = JStr cid ->
  lookup_pending cid (pendingRequests (this s)) = Some p ->
  get_field "success" fields = JBool false ->
  serialisable (get_field "payload" fields) = true ->
  Channel.onMessage data s =
    (Normal tt,
     mkSys (window s) (onMessageRef s)
           (trace s ++ [FutureReject (Pending.future p)
                          (NewError [Text "Failure response from provider.  ";
                                     Stringify (get_field "payload" fields)])])
           (this s)).
Proof.
  intros Haddressed Htype Hcid Hfound Hfailure Hserialisable.
  rewrite (onMessage_response_found _ _ _ _ _ Haddressed Htype Hcid Hfound).
  unfold settled, settlement, log. now rewrite Hfailure, Hserialisable.
Qed.

(** X13: a [signer_address_changed] notification whose payload is an object
    calls the caller's [onSignerAddressChanged] with the payload's [address]
    and nothing else; when the handler returns, the listener returns
    normally with that one call added to the trace. *)
Theorem signer_notification_reaches_handler
    (data : JsVal) (fields payload : list (string * JsVal)) (s : Sys t) :
  addressed_message (this s) data = Some (JObj fields) ->
  get_field "type" fields = JStr "notification" ->
  get_field "kind" fields = JStr "signer_address_changed" ->
  get_field "payload" fields = JObj payload ->
  Channel.onMessage_try data s =
    (HotOstrichHandlers.onSignerAddressChanged (hotOstrichHandlers (this s))
                                               (get_field "address" payload),
     log (HandlerOnSignerAddressChanged (get_field "address" payload)) s)
  /\ (HotOstrichHandlers.onSignerAddressChanged (hotOstrichHandlers (this s))
                                                (get_field "address" payload) = Normal tt ->
      Channel.onMessage data s =
      (Normal tt, log (HandlerOnSignerAddressChanged (get_field "address" payload)) s)).
Proof.
  intros Haddressed Htype Hkind Hpayload.
  assert (Htry : Channel.onMessage_try data s =
            (HotOstrichHandlers.onSignerAddressChanged (hotOstrichHandlers (this s))
                                                       (get_field "address" payload),
             log (HandlerOnSignerAddressChanged (get_field "address" payload)) s)).
  { rewrite (onMessage_try_provider_message data (JObj fields) "notification" s Haddressed)
      by (simpl; first [now rewrite Htype | now left]).
    simpl. unfold onProviderMessage, onHotOstrichNotification, onSignerAddressChanged.
    run_monad. simpl. rewrite Htype. simpl. rewrite Hkind. simpl.
    rewrite Hpayload. reflexivity. }
  split; [exact Htry |].
  intros Hquiet. unfold Channel.onMessage, try_catch. rewrite Htry, Hquiet. reflexivity.
Qed.

(** X14: a [signer_address_changed] notification without a payload never
    reaches [onSignerAddressChanged]: reading the address of the missing
    payload raises a [TypeError], and the caller's [onError] is called with
    it instead. *)
Theorem notification_without_payload_reaches_onError
    (data : JsVal) (fields : list (string * JsVal)) (s : Sys t) :
  addressed_message (this s) data = Some (JObj fields) ->
  get_field "type" fields = JStr "notification" ->
  get_field "kind" fields = JStr "signer_address_changed" ->
  has_field "payload" fields = false ->
  Channel.onMessage data s =
    (HotOstrichHandlers.onError (hotOstrichHandlers (this s))
                                (TypeError "address" JUndefined),
     log (HandlerOnError (TypeError "address" JUndefined)) s).
Proof.
  intros Haddressed Htype Hkind Habsent.
  unfold Channel.onMessage, try_catch.
  rewrite (onMessage_try_provider_message data (JObj fields) "notification" s Haddressed)
    by (simpl; first [now rewrite Htype | now left]).
  simpl. unfold onProviderMessage, onHotOstrichNotification, onSignerAddressChanged.
  run_monad. simpl. rewrite Htype. simpl. rewrite Hkind. simpl.
  rewrite (get_field_absent _ _ Habsent). reflexivity.
Qed.

(** X20: after [shutdown] no sequence of events calls anything: the state
    stays the one [shutdown] left. A typed call issued after [shutdown]
    still posts its request and enters the table, and no later event
    settles its Future. *)
Theorem nothing_is_called_after_shutdown
    (events : list JsVal) (call : TypedCall) (entryTime : Z) (cid : string) (s : Sys t) :
  perform_all (map Deliver events) (snd (Channel.shutdown s)) = snd (Channel.shutdown s)
  /\ trace (perform_all (map Deliver events)
              (snd (issue call entryTime cid (snd (Channel.shutdown s))))) =
     trace s ++ sent_by call cid s ++ [ArrayPush (entry_of call entryTime cid s)]
  /\ pendingRequests (this (perform_all (map Deliver events)
                              (snd (issue call entryTime cid (snd (Channel.shutdown s)))))) =
     pendingRequests (this s) ++ [entry_of call entryTime cid s].
Proof.
  rewrite shutdown_spec. simpl.
  split.
  - apply deliveries_unregistered. simpl. apply removeEventListener_unregisters.
  - rewrite issue_spec. simpl.
    rewrite deliveries_unregistered
      by (simpl; apply removeEventListener_unregisters).
    split; reflexivity.
Qed.


End Engine.

Section EngineWitnesses.
Import HotOstrichChannel.

Lemma other_provider_envelope_dropped_witness :
  "vault" <> "wallet"
  /\ Channel.deliver
       (JObj [("ethereum",
               JObj [("channel",
                      JStr (String.append
                              (Shared.HO_PROVIDER_CHANNEL_PREFIX Sample.hotOstrich) "vault"));
                     ("kind", JStr (Shared.HO_KIND Sample.hotOstrich));
                     ("message", JObj Sample.respX)])])
       (perform_all [Issue getSignerAddress 1000 "X"]
          (snd (new Sample.hotOstrich Sample.top 1 "wallet" Sample.quiet))) =
     (Normal tt,
      perform_all [Issue getSignerAddress 1000 "X"]
        (snd (new Sample.hotOstrich Sample.top 1 "wallet" Sample.quiet))).
Proof.
  split; [discriminate |].
  apply (other_provider_envelope_dropped Sample.hotOstrich Sample.top 1 Sample.quiet
           "vault" "wallet" [Issue getSignerAddress 1000 "X"] (JObj Sample.respX)).
  discriminate.
Defined.


Lemma success_response_resolves_its_call_witness :
  lookup_pending "Y" (pendingRequests (this Sample.rpc2)) =
    Some (mkPendingRequest 1001 "Y" "get_capabilities" 1)
  /\ Channel.onMessage (Sample.toWallet Sample.respY) Sample.rpc2 =
     (Normal tt,
      mkSys (window Sample.rpc2) (onMessageRef Sample.rpc2)
            (trace Sample.rpc2
             ++ [FutureResolve 1 (JObj [("capabilities", JObj [("0", JStr "sign")])])])
            (this Sample.rpc2)).
Proof.
  split; [reflexivity |].
  apply (success_response_resolves_its_call
           (Sample.toWallet Sample.respY) Sample.respY "Y"
           (mkPendingRequest 1001 "Y" "get_capabilities" 1) Sample.rpc2);
    reflexivity.
Defined.

Lemma response_without_success_rejects_witness :
  has_field "success" Scenario.noSuccess = false
  /\ Channel.onMessage (Sample.toWallet Scenario.noSuccess) Sample.rpc1 =
     (Normal tt,
      mkSys (window Sample.rpc1) (onMessageRef Sample.rpc1)
            (trace Sample.rpc1
             ++ [FutureReject 0 (NewError [Text "Failure response from provider.  ";
                                           Stringify (JStr "no verdict")])])
            (this Sample.rpc1)).
Proof.
  split; [reflexivity |].
  apply (response_without_success_rejects
           (Sample.toWallet Scenario.noSuccess) Scenario.noSuccess "X"
           Sample.entryX Sample.rpc1);
    reflexivity.
Defined.

Lemma failure_response_rejects_its_call_witness :
  lookup_pending "X" (pendingRequests (this Sample.rpc2)) = Some Sample.entryX
  /\ Channel.onMessage (Sample.toWallet Sample.failX) Sample.rpc2 =
     (Normal tt,
      mkSys (window Sample.rpc2) (onMessageRef Sample.rpc2)
            (trace Sample.rpc2
             ++ [FutureReject 0 (NewError [Text "Failure response from provider.  ";
                                           Stringify (JStr "user rejected")])])
            (this Sample.rpc2)).
Proof.
  split; [reflexivity |].
  apply (failure_response_rejects_its_call
           (Sample.toWallet Sample.failX) Sample.failX "X" Sample.entryX Sample.rpc2);
    reflexivity.
Defined.

Lemma signer_notification_reaches_handler_witness :
  Channel.onMessage
    (Sample.toWallet (Scenario.signerChanged (Sample.address "0xdd"))) Sample.rpc1 =
  (Normal tt, log (HandlerOnSignerAddressChanged (JStr "0xdd")) Sample.rpc1).
Proof.
  apply (signer_notification_reaches_handler
           (Sample.toWallet (Scenario.signerChanged (Sample.address "0xdd")))
           (Scenario.signerChanged (Sample.address "0xdd"))
           [("address", JStr "0xdd")] Sample.rpc1);
    reflexivity.
Defined.

Lemma notification_without_payload_reaches_onError_witness :
  has_field "payload" Scenario.bareNotification = false
  /\ Channel.onMessage (Sample.toWallet Scenario.bareNotification) Sample.rpc1 =
     (Normal tt, log (HandlerOnError (TypeError "address" JUndefined)) Sample.rpc1).
Proof.
  split; [reflexivity |].
  apply (notification_without_payload_reaches_onError
           (Sample.toWallet Scenario.bareNotification) Scenario.bareNotification
           Sample.rpc1);
    reflexivity.
Defined.


End EngineWitnesses.

(** ** Further properties of the provider directory *)

Module HandshakeAnnouncements.
Import HandshakeChannel HandshakeFacts HandshakeSteps.

(** The fields and the trace after a [provider_announcement] has been
    handled, however the callback completes. *)
Lemma onMessage_announcement_state (data : JsVal) (fields : list (string * JsVal))
    (provider_id : JsVal) (s : Sys t) :
  addressed_message (this s) data = Some (JObj fields) ->
  get_field "type" fields = JStr "notification" ->
  get_field "kind" fields = JStr "provider_announcement" ->
  js_get (get_field "payload" fields) "provider_id" = Normal provider_id ->
  this (snd (Channel.onMessage data s)) =
    record_set (to_property_key provider_id) (get_field "payload" fields) (this s)
  /\ exists rest,
      trace (snd (Channel.onMessage data s)) =
      trace s ++ HandlerOnProviderAnnounced (get_field "payload" fields) :: rest.
Proof.
  intros Haddressed Htype Hkind Hid.
  unfold Channel.onMessage, try_catch.
  rewrite (onMessage_try_announcement data fields provider_id s Haddressed Htype Hkind Hid).
  destruct (HandshakeHandlers.onProviderAnnounced (handshakeHandlers (this s))
                                                  (get_field "payload" fields))
    as [[] | thrown].
  - split; [reflexivity | exists []; reflexivity].
  - match goal with
    | |- context [Channel.onMessage_catch thrown ?s1] =>
        destruct (onMessage_catch_frame thrown s1) as [-> [rest ->]]
    end.
    split; [reflexivity |].
    exists rest. simpl. now rewrite <- app_assoc.
Qed.

(** An assignment to [__proto__] that reaches the inherited setter writes no
    own property and puts the assigned object in the prototype's place. *)
Lemma record_set_setter (payload : list (string * JsVal)) (c : t) :
  knownProviders c !! "__proto__" = None ->
  proto_is_data (knownProvidersPrototype c) = false ->
  record_set "__proto__" (JObj payload) c =
  set_knownProvidersPrototype (Announced (JObj payload)) c.
Proof.
  intros Hown Hdata. unfold record_set. simpl.
  rewrite bool_decide_eq_false_2, Hdata; [reflexivity |].
  rewrite Hown. now intros [? [=]].
Qed.

(** An assignment to [__proto__] that finds a data property of that name on
    the prototype writes an own property. *)
Lemma record_set_shadowed (value : JsVal) (c : t) :
  proto_is_data (knownProvidersPrototype c) = true ->
  record_set "__proto__" value c = set_knownProviders (insert "__proto__" value) c.
Proof.
  intros Hdata. unfold record_set. rewrite Hdata. simpl.
  now rewrite andb_false_r.
Qed.

Lemma directory_perform_all_remembers (ops : list DirectoryOperation) (s : Sys t) :
  remembers s (directory_perform_all ops s).
Proof.
  revert s. induction ops as [| op ops IH]; intros s k Hk; [exact Hk |].
  simpl. apply IH. now apply directory_perform_remembers.
Qed.

End HandshakeAnnouncements.

Section DirectoryRuns.
Import HandshakeChannel HandshakeFacts HandshakeSteps HandshakeAnnouncements.


(** X16: an announcement whose payload is an object without [provider_id]
    is stored all the same, under the key [undefined], and announced to the
    callback. *)
Theorem announcement_without_id_is_stored_as_undefined
    (data : JsVal) (fields payload : list (string * JsVal)) (s : Sys t) :
  addressed_message (this s) data = Some (JObj fields) ->
  get_field "type" fields = JStr "notification" ->
  get_field "kind" fields = JStr "provider_announcement" ->
  get_field "payload" fields = JObj payload ->
  has_field "provider_id" payload = false ->
  knownProviders (this (snd (Channel.onMessage data s))) !! "undefined"
    = Some (JObj payload)
  /\ exists rest,
      trace (snd (Channel.onMessage data s)) =
      trace s ++ HandlerOnProviderAnnounced (JObj payload) :: rest.
Proof.
  intros Haddressed Htype Hkind Hpayload Habsent.
  assert (Hid : js_get (get_field "payload" fields) "provider_id" = Normal JUndefined).
  { rewrite Hpayload. simpl. now rewrite (get_field_absent _ _ Habsent). }
  destruct (onMessage_announcement_state data fields JUndefined s
              Haddressed Htype Hkind Hid) as [-> Htrace].
  rewrite Hpayload in *. simpl.
  split; [apply lookup_insert_eq | exact Htrace].
Qed.

(** X17: an announcement for the id [__proto__], on a directory that has
    no own entry of that name, is announced to the callback, and what the
    assignment does depends on the record's prototype.  While the prototype
    has no data property [__proto__] of its own (the prototype of a new
    channel, or an announced payload without such a field) the assignment
    goes to the inherited setter: the directory holds the own entries it
    held before and the announced payload becomes its prototype.  Once the
    prototype is an announced payload that has a field [__proto__] of its
    own, the assignment stores the announcement as an own entry under
    [__proto__] and leaves the prototype alone. *)
Theorem proto_announcement_and_the_prototype
    (data : JsVal) (fields payload : list (string * JsVal)) (s : Sys t) :
  addressed_message (this s) data = Some (JObj fields) ->
  get_field "type" fields = JStr "notification" ->
  get_field "kind" fields = JStr "provider_announcement" ->
  get_field "payload" fields = JObj payload ->
  get_field "provider_id" payload = JStr "__proto__" ->
  knownProviders (this s) !! "__proto__" = None ->
  (knownProvidersPrototype (this s) = ObjectPrototype ->
     knownProviders (this (snd (Channel.onMessage data s))) = knownProviders (this s)
     /\ knownProvidersPrototype (this (snd (Channel.onMessage data s))) =
        Announced (JObj payload))
  /\ (forall earlier : list (string * JsVal),
        knownProvidersPrototype (this s) = Announced (JObj earlier) ->
        has_field "__proto__" earlier = false ->
        knownProviders (this (snd (Channel.onMessage data s))) = knownProviders (this s)
        /\ knownProvidersPrototype (this (snd (Channel.onMessage data s))) =
           Announced (JObj payload))
  /\ (forall earlier : list (string * JsVal),
        knownProvidersPrototype (this s) = Announced (JObj earlier) ->
        has_field "__proto__" earlier = true ->
        knownProviders (this (snd (Channel.onMessage data s))) =
          <["__proto__" := JObj payload]> (knownProviders (this s))
        /\ knownProvidersPrototype (this (snd (Channel.onMessage data s))) =
           Announced (JObj earlier))
  /\ exists rest,
      trace (snd (Channel.onMessage data s)) =
      trace s ++ HandlerOnProviderAnnounced (JObj payload) :: rest.
Proof.
  intros Haddressed Htype Hkind Hpayload Hid Hown.
  assert (Hget : js_get (get_field "payload" fields) "provider_id" =
                 Normal (JStr "__proto__")).
  { rewrite Hpayload. simpl. now rewrite Hid. }
  destruct (onMessage_announcement_state data fields (JStr "__proto__") s
              Haddressed Htype Hkind Hget) as [-> Htrace].
  rewrite Hpayload in *. simpl to_property_key.
  split; [| split; [| split; [| exact Htrace]]].
  - intros Hprototype.
    rewrite record_set_setter; [now split | exact Hown |].
    now rewrite Hprototype.
  - intros earlier Hprototype Hfield.
    rewrite record_set_setter; [now split | exact Hown |].
    rewrite Hprototype. exact Hfield.
  - intros earlier Hprototype Hfield.
    rewrite record_set_shadowed; [now split |].
    rewrite Hprototype. exact Hfield.
Qed.

(** X18: the directory never forgets: a provider id it holds stays in it
    through any sequence of deliveries, re-requests and shutdowns. *)
Theorem directory_never_forgets
    (ops : list DirectoryOperation) (provider_id : string) (s : Sys t) :
  is_Some (knownProviders (this s) !! provider_id) ->
  is_Some (knownProviders (this (directory_perform_all ops s)) !! provider_id).
Proof. apply directory_perform_all_remembers. Qed.

(** X19: the posts of a handshake channel's own code. The constructor
    posts the client announcement (kind ['client_announcement'], type
    ['broadcast'], payload [{}]) once, each [reRequestProviders] posts it
    once more, always in the same envelope to the same windows, and the
    channel's listener and [shutdown] post nothing. Calls that a caller's
    handler makes into the channel are calls of their own: they are counted
    where [reRequestProviders] is counted, not as part of the delivery that
    ran the handler. *)
Theorem announcements_are_counted
    (shared : Shared.HandshakeConstants) (w : Window) (ref : nat)
    (handlers : HandshakeHandlers.t) (ops : list DirectoryOperation) :
  List.filter is_post (trace (directory_perform_all ops (snd (new shared w ref handlers)))) =
  concat (repeat
            (posts w (JObj [("ethereum",
                             JObj [("channel", JStr (Shared.HS_CLIENT_CHANNEL_NAME shared));
                                   ("kind", JStr (Shared.HS_KIND shared));
                                   ("message",
                                    JObj [("kind", JStr "client_announcement");
                                          ("type", JStr "broadcast");
                                          ("payload", JObj [])])])]))
            (S (rerequests ops))).
Proof.
  rewrite directory_perform_all_posts, new_spec. simpl.
  rewrite filter_is_post_posts.
  rewrite (posts_parent w (addEventListener ref w)); [reflexivity |].
  unfold addEventListener.
  now destruct (existsb (Nat.eqb ref) (listeners w)).
Qed.

End DirectoryRuns.

Section DirectoryWitnesses.
Import HandshakeChannel.


Lemma announcement_without_id_is_stored_as_undefined_witness :
  has_field "provider_id" [("friendly_name", JStr "nameless")] = false
  /\ knownProviders
       (this (snd (Channel.onMessage
                     (Sample.toClient (Sample.notification Scenario.anonymous))
                     Sample.hs0))) !! "undefined" = Some Scenario.anonymous.
Proof.
  split; [reflexivity |].
  apply (announcement_without_id_is_stored_as_undefined
           (Sample.toClient (Sample.notification Scenario.anonymous))
           (Sample.notification Scenario.anonymous)
           [("friendly_name", JStr "nameless")] Sample.hs0);
    reflexivity.
Defined.

Lemma proto_announcement_and_the_prototype_witness :
  (knownProviders (this Scenario.hsBaited) !! "__proto__" = None
   /\ knownProvidersPrototype (this Scenario.hsBaited) = Announced Scenario.ownProto)
  /\ knownProviders
       (this (snd (Channel.onMessage
                     (Sample.toClient (Sample.notification Scenario.plainProto))
                     Scenario.hsBaited))) =
     <["__proto__" := Scenario.plainProto]> (knownProviders (this Scenario.hsBaited))
  /\ knownProvidersPrototype
       (this (snd (Channel.onMessage
                     (Sample.toClient (Sample.notification Scenario.plainProto))
                     Scenario.hsBaited))) = Announced Scenario.ownProto.
Proof.
  assert (Hown : knownProviders (this Scenario.hsBaited) !! "__proto__" = None)
    by (vm_compute; reflexivity).
  assert (Hprototype : knownProvidersPrototype (this Scenario.hsBaited)
                       = Announced Scenario.ownProto) by (vm_compute; reflexivity).
  split; [split; [exact Hown | exact Hprototype] |].
  destruct (proto_announcement_and_the_prototype
              (Sample.toClient (Sample.notification Scenario.plainProto))
              (Sample.notification Scenario.plainProto)
              [("provider_id", JStr "__proto__"); ("friendly_name", JStr "sly")]
              Scenario.hsBaited)
    as (_ & _ & Hstored & _);
    [reflexivity | reflexivity | reflexivity | reflexivity | reflexivity | exact Hown |].
  exact (Hstored _ Hprototype eq_refl).
Defined.

Lemma directory_never_forgets_witness :
  knownProviders (this Sample.hs2) !! "p1" = Some (Sample.announcement "p1" "first")
  /\ is_Some
       (knownProviders
          (this (directory_perform_all
                   [Receive (Sample.toClient
                               (Sample.notification (Sample.announcement "p2" "renamed")));
                    ReRequest; Close; Receive JNull]
                   Sample.hs2)) !! "p1").
Proof.
  assert (Hknown : knownProviders (this Sample.hs2) !! "p1"
                   = Some (Sample.announcement "p1" "first")) by (vm_compute; reflexivity).
  split; [exact Hknown |].
  apply (directory_never_forgets _ "p1" Sample.hs2).
  exact (ex_intro _ _ Hknown).
Defined.

End DirectoryWitnesses.
